(** * Question service: the bus handler for matching requests

    A shallow embedding of [question-service] controller code
    ([handleMatchingRequest], [getRandomQuestion], [formatQuestionResponse])
    and the properties of its request/reply protocol, followed by the other
    controllers of the file (test-case validation, the CRUD handlers) and the
    state updates of the front-end components that call them.

    JavaScript values are modelled as JSON trees extended with [undefined];
    the asynchronous handler is modelled sequentially (every [await] is a
    sequencing point) in a small monad that threads the trace of observable
    events and propagates thrown exceptions. *)

From Stdlib Require Import List String Ascii ZArith QArith Bool Arith Lia.
From Stdlib Require Import DecimalString Permutation.
Import ListNotations.

Set Warnings "-register-all".
Local Open Scope string_scope.
Local Open Scope list_scope.

(** ** JavaScript values *)

Module JS.

(** The values a decoded bus message, a query string or a store document is
    made of.  A number is represented by its exact rational value; an object
    by the list of its own properties, in insertion order. *)
Inductive value : Type :=
| VUndefined
| VNull
| VBool (b : bool)
| VNum (q : Q)
| VStr (s : string)
| VArr (elems : list value)
| VObj (props : list (string * value)).

(** What a [throw] carries: the engine's own [TypeError], or a failure raised
    by a collaborator (store, bus client) with an arbitrary detail. *)
Inductive exn : Type :=
| TypeError (what : string)
| Failure (detail : value).

Inductive res (A : Type) : Type :=
| Ok (a : A)
| Throw (e : exn).
Arguments Ok {A} a.
Arguments Throw {A} e.

(** [!v] is [negb (truthy v)]. *)
Definition truthy (v : value) : bool :=
  match v with
  | VUndefined | VNull => false
  | VBool b => b
  | VNum q => negb (Qnum q =? 0)%Z
  | VStr s => negb (s =? "")
  | VArr _ | VObj _ => true
  end.

Fixpoint lookup (name : string) (props : list (string * value)) : value :=
  match props with
  | [] => VUndefined
  | (k, v) :: rest => if k =? name then v else lookup name rest
  end.

Definition has_own (name : string) (props : list (string * value)) : bool :=
  existsb (fun kv => fst kv =? name) props.

Definition of_nat (n : nat) : value := VNum (inject_Z (Z.of_nat n)).

Definition decimal (i : nat) : string := NilEmpty.string_of_uint (Nat.to_uint i).

(** [v.name] for an identifier [name].  Reading a property of [undefined] or
    [null] throws; a primitive or an array has no own property besides
    [length] (the inherited methods are not among the names this code reads). *)
Definition member (v : value) (name : string) : res value :=
  match v with
  | VUndefined => Throw (TypeError ("Cannot read properties of undefined: " ++ name))
  | VNull => Throw (TypeError ("Cannot read properties of null: " ++ name))
  | VObj props => Ok (lookup name props)
  | VArr elems => Ok (if name =? "length" then of_nat (List.length elems) else VUndefined)
  | VStr s => Ok (if name =? "length" then of_nat (String.length s) else VUndefined)
  | VBool _ | VNum _ => Ok VUndefined
  end.

(** [v[i]] for an index [i]. *)
Definition element (v : value) (i : nat) : res value :=
  match v with
  | VUndefined => Throw (TypeError ("Cannot read properties of undefined: " ++ decimal i))
  | VNull => Throw (TypeError ("Cannot read properties of null: " ++ decimal i))
  | VObj props => Ok (lookup (decimal i) props)
  | VArr elems => Ok (nth i elems VUndefined)
  | VStr s => Ok (match String.get i s with
                  | Some c => VStr (String c "")
                  | None => VUndefined
                  end)
  | VBool _ | VNum _ => Ok VUndefined
  end.

(** [v === 0]. *)
Definition strict_eq_zero (v : value) : bool :=
  match v with
  | VNum q => (Qnum q =? 0)%Z
  | _ => false
  end.

(** [list.includes(v)] for a list of string constants. *)
Definition includes (l : list string) (v : value) : bool :=
  match v with
  | VStr s => existsb (String.eqb s) l
  | _ => false
  end.

(** Whether the conversion to string performed by a template literal
    completes.  The conversion of an object goes through its [toString]
    property: an own (hence non-callable) one masks the inherited method and
    the conversion throws a [TypeError]; an array joins the conversions of
    its elements. *)
Fixpoint stringifiable (v : value) : bool :=
  match v with
  | VArr elems => forallb stringifiable elems
  | VObj props => negb (has_own "toString" props)
  | _ => true
  end.

(** [JSON.stringify(v)], the document being represented by the tree a
    receiver decodes from the text: a property whose value is [undefined] is
    omitted and an [undefined] array element is written [null]. *)
Fixpoint JSON_stringify (v : value) : value :=
  match v with
  | VArr elems =>
      VArr (map (fun x => match x with
                          | VUndefined => VNull
                          | _ => JSON_stringify x
                          end) elems)
  | VObj props =>
      VObj ((fix fields (ps : list (string * value)) : list (string * value) :=
               match ps with
               | [] => []
               | (k, x) :: rest =>
                   match x with
                   | VUndefined => fields rest
                   | _ => (k, JSON_stringify x) :: fields rest
                   end
               end) props)
  | _ => v
  end.

End JS.
Import JS.

(** ** Observable events and the effect monad *)

(** A fragment of a console line: literal text, an interpolated or passed
    value, or a caught exception. *)
Inductive piece : Type :=
| Lit (s : string)
| Val (v : value)
| Exn (e : exn).

Inductive level : Type := LLog | LWarn | LError.

(** The argument of [producer.send]: a topic and the [value] of each message. *)
Record ProducerRecord : Type := {
  topic : string;
  messages : list value
}.

Inductive event : Type :=
| Console (l : level) (line : list piece)
| Query (difficulty topic : value)
| Send (record : ProducerRecord) (accepted : bool).

(** The collaborators the controller imports: the repository's
    [findRandomQuestion] and the bus client's [producer.send].  The outcome of
    a send may depend on how many sends this invocation already attempted. *)
Record env : Type := {
  _findRandomQuestion : value -> value -> res value;
  producer_send : nat -> ProducerRecord -> option exn
}.

Definition M (A : Type) : Type := env -> list event -> res A * list event.

Definition ret {A} (a : A) : M A := fun _ t => (Ok a, t).

Definition bind {A B} (m : M A) (k : A -> M B) : M B :=
  fun e t =>
    match m e t with
    | (Ok a, t') => k a e t'
    | (Throw x, t') => (Throw x, t')
    end.

Definition lift {A} (r : res A) : M A := fun _ t => (r, t).

Definition try_catch {A} (body : M A) (handler : exn -> M A) : M A :=
  fun e t =>
    match body e t with
    | (Ok a, t') => (Ok a, t')
    | (Throw x, t') => handler x e t'
    end.

Declare Scope js_scope.
Delimit Scope js_scope with js.
Notation "x <- m ;; k" := (bind m (fun x => k))
  (at level 61, m at next level, right associativity) : js_scope.
Notation "m ;; k" := (bind m (fun _ => k))
  (at level 61, right associativity) : js_scope.
Local Open Scope js_scope.

Definition emit (ev : event) : M unit := fun _ t => (Ok tt, t ++ [ev]).

Definition is_send (ev : event) : bool :=
  match ev with Send _ _ => true | _ => false end.

(** Template literal: the holes are converted left to right. *)
Fixpoint template (line : list piece) : res (list piece) :=
  match line with
  | [] => Ok []
  | Val v :: rest =>
      if stringifiable v then
        match template rest with
        | Ok r => Ok (Val v :: r)
        | Throw x => Throw x
        end
      else Throw (TypeError "Cannot convert object to primitive value")
  | p :: rest =>
      match template rest with
      | Ok r => Ok (p :: r)
      | Throw x => Throw x
      end
  end.

Definition console (l : level) (line : list piece) : M unit := emit (Console l line).

Definition findRandomQuestion (difficulty topic : value) : M value :=
  fun e t => (_findRandomQuestion e difficulty topic, t ++ [Query difficulty topic]).

Definition send (record : ProducerRecord) : M unit :=
  fun e t =>
    match producer_send e (List.length (filter is_send t)) record with
    | None => (Ok tt, t ++ [Send record true])
    | Some x => (Throw x, t ++ [Send record false])
    end.

(** ** The controller *)

Definition DIFFICULTIES : list string := ["Easy"; "Medium"; "Hard"].

Definition TOPICS : list string :=
  ["Strings"; "Arrays"; "Linked List"; "Heaps"; "Hashmap"; "Greedy"; "Graphs";
   "Dynamic Programming"].

Definition rbind {A B} (r : res A) (k : A -> res B) : res B :=
  match r with
  | Ok a => k a
  | Throw x => Throw x
  end.

Notation "'let*' x ':=' r 'in' k" := (rbind r (fun x => k))
  (at level 61, x name, r at next level, right associativity) : js_scope.

Definition formatQuestionResponse (question : value) : res value :=
  let* id := member question "id" in
  let* title := member question "title" in
  let* difficulty := member question "difficulty" in
  let* topics := member question "topics" in
  let* problemStatement := member question "problemStatement" in
  let* constraints := member question "constraints" in
  let* examples := member question "examples" in
  let* codeSnippets := member question "codeSnippets" in
  let* entryPoint := member question "entryPoint" in
  let* timeout := member question "timeout" in
  let* signature := member question "signature" in
  let* testCases := member question "testCases" in
  Ok (VObj [("id", id);
            ("title", title);
            ("difficulty", difficulty);
            ("topics", topics);
            ("problemStatement", problemStatement);
            ("constraints", constraints);
            ("examples", examples);
            ("codeSnippets", codeSnippets);
            ("entryPoint", entryPoint);
            ("timeout", timeout);
            ("signature", signature);
            ("testCases", testCases)]).

(** The object literal of a reply, before serialisation. *)
Definition reply (correlationId : value) (status : string) (data : value)
    (message : string) : value :=
  VObj [("correlationId", correlationId);
        ("status", VStr status);
        ("data", data);
        ("message", VStr message)].

Definition no_questions_message : string :=
  "No questions found matching the criteria.".

Definition found_message : string := "Question found successfully.".

Definition internal_error_message : string :=
  "An internal error occurred in the Question Service.".

Definition reply_record (payload : value) : ProducerRecord :=
  {| topic := "question-replies"; messages := [JSON_stringify payload] |}.

Definition handleMatchingRequest (message : value) : M unit :=
  correlationId <- lift (member message "correlationId") ;;
  meta <- lift (member message "meta") ;;
  difficulty <- lift (member meta "difficulty") ;;
  missing <- (if negb (truthy difficulty) then ret true
              else (topics <- lift (member meta "topics") ;;
                    ret (negb (truthy topics)))) ;;
  if (missing : bool) then
    console LWarn [Lit "Received invalid matching request (missing fields):";
                   Val message]
  else
    difficulty <- lift (member meta "difficulty") ;;
    topics <- lift (member meta "topics") ;;
    topic0 <- lift (element topics 0) ;;
    line <- lift (template [Lit "[Question] Kafka: Handling request ";
                            Val correlationId; Lit " for "; Val difficulty;
                            Lit " and topic "; Val topic0]) ;;
    console LLog line ;;
    try_catch
      (difficulty <- lift (member meta "difficulty") ;;
       topics <- lift (member meta "topics") ;;
       topic0 <- lift (element topics 0) ;;
       randomQuestion <- findRandomQuestion difficulty topic0 ;;
       empty <- (if negb (truthy randomQuestion) then ret true
                 else (len <- lift (member randomQuestion "length") ;;
                       ret (strict_eq_zero len))) ;;
       if (empty : bool) then
         line <- lift (template [Lit "[Question] Kafka: No question found for ";
                                 Val correlationId]) ;;
         console LWarn line ;;
         send (reply_record (reply correlationId "error" VNull no_questions_message))
       else
         question <- lift (element randomQuestion 0) ;;
         data <- lift (formatQuestionResponse question) ;;
         send (reply_record (reply correlationId "success" data found_message)) ;;
         line <- lift (template [Lit "[Question] Kafka: Sent reply for ";
                                 Val correlationId]) ;;
         console LLog line)
      (fun err =>
         line <- lift (template [Lit "[Question] Kafka: Error processing request ";
                                 Val correlationId; Lit ":"]) ;;
         console LError (line ++ [Exn err]) ;;
         try_catch
           (send (reply_record
                    (reply correlationId "error" VNull internal_error_message)))
           (fun sendErr =>
              console LError
                [Lit "[Question] Kafka: CRITICAL! Failed to send error reply:";
                 Exn sendErr])).

(** What [res.status(code).json(body)] puts on the wire; [data] is
    [VUndefined] when the body has no such key. *)
Record HttpResponse : Type := {
  status : nat;
  message : list piece;
  data : value
}.

Definition json (code : nat) (msg : list piece) (d : value) : M HttpResponse :=
  ret {| status := code; message := msg; data := JSON_stringify d |}.

(** [getRandomQuestion(req, res)], as a function of [req.query]. *)
Definition getRandomQuestion (query : value) : M HttpResponse :=
  try_catch
    (difficulty <- lift (member query "difficulty") ;;
     topics <- lift (member query "topics") ;;
     if negb (truthy difficulty) then
       json 404 [Lit "Difficulty must be specified"] VUndefined
     else if negb (truthy topics) then
       json 404 [Lit "Topics must be specified"] VUndefined
     else if truthy difficulty && negb (includes DIFFICULTIES difficulty) then
       line <- lift (template [Lit "Invalid difficulty level: "; Val difficulty]) ;;
       json 404 line VUndefined
     else if truthy topics && negb (includes TOPICS topics) then
       line <- lift (template [Lit "Invalid topic: "; Val topics]) ;;
       json 404 line VUndefined
     else
       randomQuestion <- findRandomQuestion difficulty topics ;;
       empty <- (if negb (truthy randomQuestion) then ret true
                 else (len <- lift (member randomQuestion "length") ;;
                       ret (strict_eq_zero len))) ;;
       if (empty : bool) then
         json 404 [Lit no_questions_message] VUndefined
       else
         line <- lift (template
                         [Lit "Found a random question for the difficulty: ";
                          Val difficulty; Lit " and topic: "; Val topics]) ;;
         question <- lift (element randomQuestion 0) ;;
         d <- lift (formatQuestionResponse question) ;;
         json 200 line d)
    (fun err =>
       console LError [Exn err] ;;
       json 500 [Lit "Unknown error when getting a random question!"] VUndefined).

(** ** Observations on a run *)

Definition run {A} (m : M A) (e : env) : res A * list event := m e [].

Definition outcome (message : value) (e : env) : res unit :=
  fst (run (handleMatchingRequest message) e).

Definition trace (message : value) (e : env) : list event :=
  snd (run (handleMatchingRequest message) e).

(** Every call of [producer.send], with whether the bus accepted it. *)
Fixpoint attempts (t : list event) : list (ProducerRecord * bool) :=
  match t with
  | [] => []
  | Send r ok :: rest => (r, ok) :: attempts rest
  | _ :: rest => attempts rest
  end.

(** The records that reached the bus. *)
Definition published (t : list event) : list ProducerRecord :=
  map fst (filter snd (attempts t)).

Fixpoint queries (t : list event) : list (value * value) :=
  match t with
  | [] => []
  | Query d tp :: rest => (d, tp) :: queries rest
  | _ :: rest => queries rest
  end.

(** ** Well-formed requests *)

(** The inbound payload of the [matching-requests] topic:
    [{ correlationId: string, meta: { difficulty: string, topics: string[] } }]. *)
Record MatchRequest : Type := {
  req_correlationId : string;
  req_difficulty : string;
  req_topics : list string
}.

(** [message] carries the fields of [r] (and possibly others). *)
Definition decodes (message : value) (r : MatchRequest) : Prop :=
  member message "correlationId" = Ok (VStr (req_correlationId r)) /\
  exists meta,
    member message "meta" = Ok meta /\
    member meta "difficulty" = Ok (VStr (req_difficulty r)) /\
    member meta "topics" = Ok (VArr (map VStr (req_topics r))).

Definition encode (r : MatchRequest) : value :=
  VObj [("correlationId", VStr (req_correlationId r));
        ("meta", VObj [("difficulty", VStr (req_difficulty r));
                       ("topics", VArr (map VStr (req_topics r)))])].

(** [meta.topics[0]] of a decoded request. *)
Definition first_topic (r : MatchRequest) : value :=
  nth 0 (map VStr (req_topics r)) VUndefined.

(** What the guard, the log line and the query read from a decoded request. *)
Record accepted (message : value) (r : MatchRequest) (meta : value) : Prop := {
  acc_cid : member message "correlationId" = Ok (VStr (req_correlationId r));
  acc_meta : member message "meta" = Ok meta;
  acc_difficulty : member meta "difficulty" = Ok (VStr (req_difficulty r));
  acc_topics : member meta "topics" = Ok (VArr (map VStr (req_topics r)));
  acc_present : truthy (VStr (req_difficulty r)) = true;
  acc_array : truthy (VArr (map VStr (req_topics r))) = true;
  acc_first : element (VArr (map VStr (req_topics r))) 0 = Ok (first_topic r);
  acc_log1 : stringifiable (VStr (req_correlationId r)) = true;
  acc_log2 : stringifiable (VStr (req_difficulty r)) = true;
  acc_log3 : stringifiable (first_topic r) = true
}.

(** [meta.name] as the guard of the handler sees it; [undefined] when there
    is no [meta] to read it from. *)
Definition meta_field (message : value) (name : string) : value :=
  match member message "meta" with
  | Ok meta => match member meta name with Ok v => v | Throw _ => VUndefined end
  | Throw _ => VUndefined
  end.

(** The test [!randomQuestion || randomQuestion.length === 0]. *)
Definition empty_result (randomQuestion : value) : bool :=
  negb (truthy randomQuestion) ||
  match member randomQuestion "length" with
  | Ok len => strict_eq_zero len
  | Throw _ => false
  end.

(** The bus accepts the first publish of an invocation. *)
Definition accepts_first (e : env) : Prop :=
  forall record, producer_send e 0 record = None.

(** ** The question store *)

Module Store.

Definition is_string (s : string) (v : value) : bool :=
  match v with
  | VStr s' => s' =? s
  | _ => false
  end.

(** Modelled from the spec: the repository function behind
    [_findRandomQuestion] (model/repository.js) is not among the sources.  The
    criteria selector restricts to the records whose difficulty equals the
    input exactly and whose topic set contains the input topic. *)
Definition matches (difficulty topic : value) (q : value) : bool :=
  match difficulty, topic with
  | VStr d, VStr t =>
      match member q "difficulty", member q "topics" with
      | Ok qd, Ok (VArr ts) => is_string d qd && existsb (is_string t) ts
      | _, _ => false
      end
  | _, _ => false
  end.

(** Modelled from the spec: the records a filter selects, in store order. *)
Definition matching (records : list value) (difficulty topic : value) : list value :=
  filter (matches difficulty topic) records.

(** Modelled from the spec: the position drawn among [n] matches by a random
    source [seed]. *)
Definition pick (n seed : nat) : nat := seed mod n.

(** Modelled from the spec: [findRandomMatch(difficulty, topic)] returns one
    of the matching records, or the explicit no-match signal when there is
    none. *)
Definition findRandomMatch (records : list value) (difficulty topic : value)
    (seed : nat) : option value :=
  let m := matching records difficulty topic in
  nth_error m (pick (List.length m) seed).

(** The probability of [event] when the seed is drawn uniformly among
    [0 .. n-1]. *)
Definition probability (n : nat) (event : nat -> bool) : Q :=
  Z.of_nat (List.length (filter event (seq 0 n))) # Pos.of_nat n.

End Store.

(** ** Sample requests and collaborators *)

Module Sample.

Definition request : MatchRequest :=
  {| req_correlationId := "abc-1";
     req_difficulty := "Medium";
     req_topics := ["Graphs"] |}.

Definition no_topics : MatchRequest :=
  {| req_correlationId := "abc-2";
     req_difficulty := "Medium";
     req_topics := [] |}.

Definition extreme : MatchRequest :=
  {| req_correlationId := "abc-3";
     req_difficulty := "Extreme";
     req_topics := ["Graphs"] |}.

(** [{ correlationId: "abc-4" }]: no [meta] at all. *)
Definition no_meta : value := VObj [("correlationId", VStr "abc-4")].

(** [{ correlationId: "abc-5", meta: { topics: ["Graphs"] } }]. *)
Definition no_difficulty : value :=
  VObj [("correlationId", VStr "abc-5");
        ("meta", VObj [("topics", VArr [VStr "Graphs"])])].

Definition Q1 : value :=
  VObj [("_id", VStr "65f0c1"); ("id", VStr "65f0c1"); ("title", VStr "Q1");
        ("difficulty", VStr "Medium"); ("topics", VArr [VStr "Graphs"])].

Definition Q2 : value :=
  VObj [("_id", VStr "65f0c2"); ("id", VStr "65f0c2"); ("title", VStr "Q2");
        ("difficulty", VStr "Medium");
        ("topics", VArr [VStr "Arrays"; VStr "Graphs"])].

Definition Q3 : value :=
  VObj [("_id", VStr "65f0c3"); ("id", VStr "65f0c3"); ("title", VStr "Q3");
        ("difficulty", VStr "Hard"); ("topics", VArr [VStr "Graphs"])].

Definition reliable : nat -> ProducerRecord -> option exn := fun _ _ => None.

(** A bus that rejects the first publish of an invocation only. *)
Definition flaky : nat -> ProducerRecord -> option exn :=
  fun n _ => match n with
             | O => Some (Failure (VStr "broker unavailable"))
             | S _ => None
             end.

Definition found : env :=
  {| _findRandomQuestion := fun _ _ => Ok (VArr [Q1]); producer_send := reliable |}.

Definition nothing : env :=
  {| _findRandomQuestion := fun _ _ => Ok VNull; producer_send := reliable |}.

Definition fault : env :=
  {| _findRandomQuestion := fun _ _ => Throw (Failure (VStr "ECONNREFUSED"));
     producer_send := reliable |}.

Definition found_flaky : env :=
  {| _findRandomQuestion := fun _ _ => Ok (VArr [Q1]); producer_send := flaky |}.

(** The HTTP query [?difficulty=Medium&topics=Graphs]. *)
Definition query : value :=
  VObj [("difficulty", VStr "Medium"); ("topics", VStr "Graphs")].

(** The HTTP query [?difficulty=Extreme&topics=Graphs]. *)
Definition extreme_query : value :=
  VObj [("difficulty", VStr "Extreme"); ("topics", VStr "Graphs")].

(** What the formatter makes of [Q1]. *)
Definition Q1_public : value :=
  Eval cbv in
    match formatQuestionResponse Q1 with
    | Ok d => d
    | Throw _ => VUndefined
    end.

End Sample.

(** ** Further operators of the language *)

(** [Array.isArray(v)]. *)
Definition isArray (v : value) : bool :=
  match v with
  | VArr _ => true
  | _ => false
  end.

(** [typeof v === "boolean"]. *)
Definition is_boolean (v : value) : bool :=
  match v with
  | VBool _ => true
  | _ => false
  end.

(** [typeof v === "string"]. *)
Definition is_string_value (v : value) : bool :=
  match v with
  | VStr _ => true
  | _ => false
  end.

(** [v === undefined || v === null]. *)
Definition nullish (v : value) : bool :=
  match v with
  | VUndefined | VNull => true
  | _ => false
  end.

(** [v.name] where [v] is known not to be [undefined] or [null]. *)
Definition field (v : value) (name : string) : value :=
  match member v name with
  | Ok x => x
  | Throw _ => VUndefined
  end.

(** [name in v] for an object [v]: the names these programs test are not
    inherited ones. *)
Definition has_property (name : string) (v : value) : bool :=
  match v with
  | VObj props => has_own name props
  | _ => false
  end.

(** [v?.name]. *)
Definition optional (v : value) (name : string) : res value :=
  if nullish v then Ok VUndefined else member v name.

(** [a ?? b]. *)
Definition coalesce (a b : value) : value := if nullish a then b else a.

(** [a || b]. *)
Definition or_else (a b : value) : value := if truthy a then a else b.

(** [array.map(f)] for a callback that may throw: left to right, stopping at
    the first exception. *)
Fixpoint map_res {A B : Type} (f : A -> res B) (l : list A) : res (list B) :=
  match l with
  | [] => Ok []
  | a :: rest =>
      let* b := f a in
      let* bs := map_res f rest in
      Ok (b :: bs)
  end.

(** ** Test-case validation (controller helpers) *)

Module TestCases.

(** An entry [{ index, message }] of the problem list. *)
Record Problem : Type := {
  index : Z;
  message : string
}.

(** [JSON.stringify] throws on cyclic structures and big integers only; a
    tree has neither. *)
Definition isJsonSerializable (v : value) : bool :=
  match JSON_stringify v with
  | _ => true
  end.

(** The callback of [testCases.forEach((tc, idx) => ...)]. *)
Definition check (idx : nat) (tc : value) : list Problem :=
  if negb (truthy tc) || negb (isArray (field tc "args")) then
    [{| index := Z.of_nat idx; message := "`args` must be an array." |}]
  else if negb (has_property "expected" tc) then
    [{| index := Z.of_nat idx; message := "`expected` is required." |}]
  else
    (if negb (isJsonSerializable (field tc "args")) ||
        negb (isJsonSerializable (field tc "expected"))
     then [{| index := Z.of_nat idx;
              message := "`args` and `expected` must be JSON-serializable." |}]
     else []) ++
    (if has_property "hidden" tc && negb (is_boolean (field tc "hidden"))
     then [{| index := Z.of_nat idx; message := "`hidden` must be a boolean." |}]
     else []).

Fixpoint forEach (idx : nat) (testCases : list value) : list Problem :=
  match testCases with
  | [] => []
  | tc :: rest => check idx tc ++ forEach (S idx) rest
  end.

(** [validateFunctionTestCases(testCases = [])]. *)
Definition validateFunctionTestCases (testCases : value) : list Problem :=
  let testCases := match testCases with VUndefined => VArr [] | _ => testCases end in
  match testCases with
  | VArr (tc :: rest) => forEach 0 (tc :: rest)
  | _ => [{| index := (-1)%Z; message := "At least one test case is required." |}]
  end.

(** The callback [(tc) => ({ args: tc.args, expected: tc.expected,
    hidden: !!tc.hidden })]. *)
Definition clean (tc : value) : res value :=
  let* args := member tc "args" in
  let* expected := member tc "expected" in
  let* hidden := member tc "hidden" in
  Ok (VObj [("args", args);
            ("expected", expected);
            ("hidden", VBool (truthy hidden))]).

(** [sanitizeTestCasesForSave(testCases = [])]. *)
Definition sanitizeTestCasesForSave (testCases : value) : res value :=
  let testCases := match testCases with VUndefined => VArr [] | _ => testCases end in
  let* cleaned :=
    map_res clean (if isArray testCases
                   then match testCases with VArr elems => elems | _ => [] end
                   else []) in
  Ok (VArr cleaned).

(** The test cases the validation lets through. *)
Definition well_formed (tc : value) : Prop :=
  exists props,
    tc = VObj props /\
    isArray (lookup "args" props) = true /\
    has_own "expected" props = true /\
    (has_own "hidden" props = true -> is_boolean (lookup "hidden" props) = true).

End TestCases.

(** ** Front-end state updates *)

Module Frontend.

(** The updater [prev => prev.includes(t) ? prev.filter(x => x !== t) : [...prev, t]]
    of both topic pickers. *)
Definition toggle (t : string) (prev : list string) : list string :=
  if existsb (String.eqb t) prev
  then filter (fun x => negb (x =? t)) prev
  else prev ++ [t].

(** [toggleTopic] of the challenge page: no change while queueing. *)
Definition toggleTopic (isQueueing : bool) (t : string)
    (selectedTopics : list string) : list string :=
  if isQueueing then selectedTopics else toggle t selectedTopics.

(** The selection after a sequence of clicks. *)
Definition clicks (isQueueing : bool) (ts : list string)
    (selectedTopics : list string) : list string :=
  fold_left (fun selected t => toggleTopic isQueueing t selected) ts selectedTopics.

(** [normalizeSaved(raw)] of the question form. *)
Definition normalizeSaved (raw : value) : res value :=
  let* wrapped := optional raw "data" in
  let data := coalesce (coalesce wrapped raw) (VObj []) in
  let* id1 := optional data "id" in
  let* id2 := optional data "_id" in
  let id := or_else (or_else id1 id2) (VStr "") in
  let* title := member data "title" in
  let* difficulty := member data "difficulty" in
  let* topics := member data "topics" in
  let* problemStatement := member data "problemStatement" in
  let* constraints := member data "constraints" in
  let* examples := member data "examples" in
  let* codeSnippets := member data "codeSnippets" in
  let* testCases := member data "testCases" in
  let* entryPoint := member data "entryPoint" in
  let* signature := member data "signature" in
  let* timeout := member data "timeout" in
  Ok (VObj [("id", id);
            ("title", title);
            ("difficulty", difficulty);
            ("topics", topics);
            ("problemStatement", problemStatement);
            ("constraints", or_else constraints (VArr []));
            ("examples", or_else examples (VArr []));
            ("codeSnippets", or_else codeSnippets (VArr []));
            ("testCases", or_else testCases (VArr []));
            ("entryPoint", or_else entryPoint (VStr ""));
            ("signature", signature);
            ("timeout", timeout)]).

End Frontend.

(** ** The CRUD controllers *)

Module Crud.

(** A number as [Number(...)] returns it. *)
Inductive number : Type :=
| NaN
| Finite (q : Q)
| Infinite (positive : bool).

(** [Number.isNaN(n)]. *)
Definition isNaN (n : number) : bool :=
  match n with
  | NaN => true
  | _ => false
  end.

(** [n <= 0]. *)
Definition le_zero (n : number) : bool :=
  match n with
  | NaN => false
  | Finite q => Qle_bool q 0
  | Infinite positive => negb positive
  end.

(** [0 < n]. *)
Definition positive (n : number) : bool :=
  match n with
  | NaN => false
  | Finite q => negb (Qle_bool q 0)
  | Infinite positive => positive
  end.

(** The eleven arguments of [_createQuestion], which [_updateQuestionById]
    takes after the id. *)
Record Fields : Type := {
  f_title : value;
  f_difficulty : value;
  f_topics : value;
  f_problemStatement : value;
  f_constraints : value;
  f_examples : value;
  f_codeSnippets : value;
  f_entryPoint : value;
  f_timeout : number;
  f_signature : value;
  f_testCases : value
}.

Inductive event : Type :=
| FindByTitle (title : value)
| FindById (id : value)
| FindAll
| Create (fields : Fields)
| Update (id : value) (fields : Fields)
| Delete (id : value)
| Destroy (keys : list string)
| ConsoleError (err : exn).

(** What the controllers import or call: the repository, mongoose's
    [isValidObjectId], the helpers of the upload controller (image keys are
    strings), and the conversions [Number(v)] and [v.toString()] of the
    language for the cases not written out below. *)
Record env : Type := {
  isValidObjectId : value -> bool;
  _findQuestionByTitle : value -> res value;
  _findQuestionById : value -> res value;
  _findAllQuestions : res value;
  _createQuestion : Fields -> res value;
  _updateQuestionById : value -> Fields -> res value;
  _deleteQuestionById : value -> res value;
  sanitizeExamplesForSave : value -> res value;
  collectImageKeys : value -> res (list string);
  destroyCloudinaryKeys : list string -> option exn;
  Number : value -> res number;
  toString : value -> res string
}.

Definition C (A : Type) : Type := env -> list event -> res A * list event.

Definition ret {A} (a : A) : C A := fun _ t => (Ok a, t).

Definition bind {A B} (m : C A) (k : A -> C B) : C B :=
  fun e t =>
    match m e t with
    | (Ok a, t') => k a e t'
    | (Throw x, t') => (Throw x, t')
    end.

Definition lift {A} (r : res A) : C A := fun _ t => (r, t).

(** A helper that reads the environment and has no effect of its own. *)
Definition ask {A} (f : env -> res A) : C A := fun e t => (f e, t).

(** A call of a collaborator, recorded whether it returns or throws. *)
Definition call {A} (ev : event) (f : env -> res A) : C A :=
  fun e t => (f e, t ++ [ev]).

Definition try_catch {A} (body : C A) (handler : exn -> C A) : C A :=
  fun e t =>
    match body e t with
    | (Ok a, t') => (Ok a, t')
    | (Throw x, t') => handler x e t'
    end.

Declare Scope crud_scope.
Notation "x <- m ;; k" := (bind m (fun x => k))
  (at level 61, m at next level, right associativity) : crud_scope.
Notation "m ;; k" := (bind m (fun _ => k))
  (at level 61, right associativity) : crud_scope.
Local Open Scope crud_scope.

Definition run {A} (m : C A) (e : env) : res A * list event := m e [].

(** What [res.status(code).json(body)] puts on the wire; a key the body does
    not have is [VUndefined]. *)
Record Response : Type := {
  status : nat;
  message : list piece;
  data : value;
  details : value
}.

Definition json (code : nat) (msg : list piece) (d det : value) : C Response :=
  ret {| status := code; message := msg;
         data := JSON_stringify d; details := JSON_stringify det |}.

Definition console_error (err : exn) : C unit :=
  fun _ t => (Ok tt, t ++ [ConsoleError err]).

(** White space in the sense of [String.prototype.trim], among the code units
    below 256 that a string of the model is made of. *)
Definition is_space (c : ascii) : bool :=
  let n := nat_of_ascii c in
  ((n =? 9) || (n =? 10) || (n =? 11) || (n =? 12) || (n =? 13) || (n =? 32)
   || (n =? 160))%nat.

(** [s.trim() === ""]. *)
Fixpoint blank (s : string) : bool :=
  match s with
  | EmptyString => true
  | String c rest => is_space c && blank rest
  end.

(** [v.trim() === ""] for a truthy [v]: only a string has the method. *)
Definition trim_is_empty (v : value) : res bool :=
  match v with
  | VStr s => Ok (blank s)
  | VUndefined | VNull => Throw (TypeError "Cannot read properties of undefined: trim")
  | _ => Throw (TypeError "trim is not a function")
  end.

(** The values read from [req.body]. *)
Record Body : Type := {
  title : value;
  difficulty : value;
  topics : value;
  problemStatement : value;
  constraints : value;
  examples : value;
  codeSnippets : value;
  entryPoint : value;
  timeout : value;
  signature : value;
  testCases : value
}.

(** [const { title, ..., testCases } = req.body]. *)
Definition read_body (body : value) : res Body :=
  let* title := member body "title" in
  let* difficulty := member body "difficulty" in
  let* topics := member body "topics" in
  let* problemStatement := member body "problemStatement" in
  let* constraints := member body "constraints" in
  let* examples := member body "examples" in
  let* codeSnippets := member body "codeSnippets" in
  let* entryPoint := member body "entryPoint" in
  let* timeout := member body "timeout" in
  let* signature := member body "signature" in
  let* testCases := member body "testCases" in
  Ok {| title := title; difficulty := difficulty; topics := topics;
        problemStatement := problemStatement; constraints := constraints;
        examples := examples; codeSnippets := codeSnippets;
        entryPoint := entryPoint; timeout := timeout; signature := signature;
        testCases := testCases |}.

(** The filter of [missingFields]: [value === undefined || value === null ||
    (typeof value === "string" && value.trim() === "")]. *)
Definition is_missing (v : value) : bool :=
  nullish v ||
  match v with
  | VStr s => blank s
  | _ => false
  end.

Definition requiredFields (b : Body) : list (string * value) :=
  [("title", title b);
   ("difficulty", difficulty b);
   ("topics", topics b);
   ("problemStatement", problemStatement b);
   ("constraints", constraints b);
   ("examples", examples b);
   ("entryPoint", entryPoint b);
   ("testCases", testCases b)].

(** [Object.entries(requiredFields).filter(...).map(([key]) => key)]. *)
Definition missingFields (b : Body) : list string :=
  map fst (filter (fun kv => is_missing (snd kv)) (requiredFields b)).

(** [if (!ex.name || ex.name.trim() === "") missing.push(name)]. *)
Definition missing_part (name : string) (ex : value) : res (list string) :=
  let* v := member ex name in
  if negb (truthy v) then Ok [name]
  else
    let* b := trim_is_empty v in
    Ok (if (b : bool) then [name] else []).

(** The callback of [(examples || []).map((ex, idx) => ...)]; [None] stands
    for the [true] that the following filter removes. *)
Definition check_example (idx : nat) (ex : value) : res (option value) :=
  let* m1 := missing_part "input" ex in
  let* m2 := missing_part "output" ex in
  let missing := m1 ++ m2 in
  Ok (if (0 <? List.length missing)%nat
      then Some (VObj [("index", of_nat idx);
                       ("missing", VArr (map VStr missing))])
      else None).

Fixpoint check_examples (idx : nat) (exs : list value) : res (list value) :=
  match exs with
  | [] => Ok []
  | ex :: rest =>
      let* r := check_example idx ex in
      let* rs := check_examples (S idx) rest in
      Ok (match r with Some bad => bad :: rs | None => rs end)
  end.

(** [(examples || []).map(...).filter((x) => x !== true)]; only an array has
    [map]. *)
Definition invalidExamples (examples : value) : res (list value) :=
  match or_else examples (VArr []) with
  | VArr elems => check_examples 0 elems
  | _ => Throw (TypeError "(examples || []).map is not a function")
  end.

Definition problem_value (p : TestCases.Problem) : value :=
  VObj [("index", VNum (inject_Z (TestCases.index p)));
        ("message", VStr (TestCases.message p))].

(** [timeoutSec = Number(timeout); if (Number.isNaN(timeoutSec) ||
    timeoutSec <= 0) timeoutSec = 1]. *)
Definition normalize_timeout (n : number) : number :=
  if isNaN n || le_zero n then Finite 1 else n.

Definition findQuestionByTitle (title : value) : C value :=
  call (FindByTitle title) (fun e => _findQuestionByTitle e title).

Definition findQuestionById (id : value) : C value :=
  call (FindById id) (fun e => _findQuestionById e id).

Definition findAllQuestions : C value :=
  call FindAll (fun e => _findAllQuestions e).

(** [createQuestion(req, res)], as a function of [req.body]. *)
Definition createQuestion (body : value) : C Response :=
  try_catch
    (b <- lift (read_body body) ;;
     if (0 <? List.length (missingFields b))%nat then
       json 400 [Lit ("Missing required fields: " ++
                      String.concat ", " (missingFields b))]
         VUndefined VUndefined
     else
       invalid <- lift (invalidExamples (examples b)) ;;
       if (0 <? List.length invalid)%nat then
         json 400 [Lit "Invalid examples"] VUndefined (VArr invalid)
       else
         let tcProblems := TestCases.validateFunctionTestCases (testCases b) in
         if (0 <? List.length tcProblems)%nat then
           json 400 [Lit "Invalid test cases"] VUndefined
             (VArr (map problem_value tcProblems))
         else
           existingQuestion <- findQuestionByTitle (title b) ;;
           if truthy existingQuestion then
             json 409 [Lit "Title already exists"] VUndefined VUndefined
           else
             cleanExamples <- ask (fun e => sanitizeExamplesForSave e (examples b)) ;;
             cleanTestCases <- lift (TestCases.sanitizeTestCasesForSave (testCases b)) ;;
             timeoutSec <- ask (fun e => Number e (timeout b)) ;;
             let fields :=
               {| f_title := title b;
                  f_difficulty := difficulty b;
                  f_topics := topics b;
                  f_problemStatement := problemStatement b;
                  f_constraints := constraints b;
                  f_examples := cleanExamples;
                  f_codeSnippets := codeSnippets b;
                  f_entryPoint := entryPoint b;
                  f_timeout := normalize_timeout timeoutSec;
                  f_signature := signature b;
                  f_testCases := cleanTestCases |} in
             createdQuestion <- call (Create fields) (fun e => _createQuestion e fields) ;;
             line <- lift (template [Lit "Created new question "; Val (title b);
                                     Lit " successfully"]) ;;
             d <- lift (formatQuestionResponse createdQuestion) ;;
             json 201 line d VUndefined)
    (fun err =>
       console_error err ;;
       json 500 [Lit "Unknown error when creating new question!"]
         VUndefined VUndefined).

(** [v.toString()] for the [_id] of a document. *)
Definition id_string (v : value) : C string :=
  match v with
  | VStr s => ret s
  | VUndefined | VNull =>
      lift (Throw (TypeError "Cannot read properties of undefined: toString"))
  | _ => ask (fun e => toString e v)
  end.

(** [s !== id] for a string [s]. *)
Definition differs (s : string) (id : value) : bool :=
  match id with
  | VStr s' => negb (s =? s')
  | _ => true
  end.

(** [prevKeys.filter((k) => !newKeys.includes(k))]. *)
Definition keysToDelete (prevKeys newKeys : list string) : list string :=
  filter (fun k => negb (existsb (String.eqb k) newKeys)) prevKeys.

(** [updateQuestion(req, res)], as a function of [req.params] and [req.body]. *)
Definition updateQuestion (params body : value) : C Response :=
  try_catch
    (id <- lift (member params "id") ;;
     b <- lift (read_body body) ;;
     valid <- ask (fun e => Ok (isValidObjectId e id)) ;;
     if negb valid then
       json 400 [Lit "Invalid question ID"] VUndefined VUndefined
     else
       current <- findQuestionById id ;;
       if negb (truthy current) then
         json 404 [Lit "Question not found"] VUndefined VUndefined
       else if (0 <? List.length (missingFields b))%nat then
         json 400 [Lit ("Missing required fields: " ++
                        String.concat ", " (missingFields b))]
           VUndefined VUndefined
       else
         invalid <- lift (invalidExamples (examples b)) ;;
         if (0 <? List.length invalid)%nat then
           json 400 [Lit "Invalid examples"] VUndefined (VArr invalid)
         else
           let tcProblems := TestCases.validateFunctionTestCases (testCases b) in
           if (0 <? List.length tcProblems)%nat then
             json 400 [Lit "Invalid test cases"] VUndefined
               (VArr (map problem_value tcProblems))
           else
             existingQuestion <- findQuestionByTitle (title b) ;;
             conflict <- (if truthy existingQuestion then
                            _id <- lift (member existingQuestion "_id") ;;
                            s <- id_string _id ;;
                            ret (differs s id)
                          else ret false) ;;
             if (conflict : bool) then
               json 409 [Lit "Title already exists"] VUndefined VUndefined
             else
               cleanExamples <- ask (fun e => sanitizeExamplesForSave e (examples b)) ;;
               currentExamples <- lift (member current "examples") ;;
               prevKeys <- ask (fun e => collectImageKeys e currentExamples) ;;
               newKeys <- ask (fun e => collectImageKeys e cleanExamples) ;;
               cleanTestCases <- lift (TestCases.sanitizeTestCasesForSave (testCases b)) ;;
               timeoutSec <- ask (fun e => Number e (timeout b)) ;;
               let fields :=
                 {| f_title := title b;
                    f_difficulty := difficulty b;
                    f_topics := topics b;
                    f_problemStatement := problemStatement b;
                    f_constraints := constraints b;
                    f_examples := cleanExamples;
                    f_codeSnippets := codeSnippets b;
                    f_entryPoint := entryPoint b;
                    f_timeout := normalize_timeout timeoutSec;
                    f_signature := signature b;
                    f_testCases := cleanTestCases |} in
               updatedQuestion <- call (Update id fields)
                                    (fun e => _updateQuestionById e id fields) ;;
               if negb (truthy updatedQuestion) then
                 json 404 [Lit "Question not found"] VUndefined VUndefined
               else
                 call (Destroy (keysToDelete prevKeys newKeys))
                   (fun e => match destroyCloudinaryKeys e (keysToDelete prevKeys newKeys) with
                             | None => Ok tt
                             | Some x => Throw x
                             end) ;;
                 line <- lift (template [Lit "Updated question "; Val (title b);
                                         Lit " successfully"]) ;;
                 d <- lift (formatQuestionResponse updatedQuestion) ;;
                 json 200 line d VUndefined)
    (fun err =>
       console_error err ;;
       json 500 [Lit "Unknown error when updating question!"]
         VUndefined VUndefined).

(** [getQuestion(req, res)], as a function of [req.params]. *)
Definition getQuestion (params : value) : C Response :=
  try_catch
    (questionId <- lift (member params "id") ;;
     valid <- ask (fun e => Ok (isValidObjectId e questionId)) ;;
     if negb valid then
       line <- lift (template [Lit "ID "; Val questionId; Lit " is invalid"]) ;;
       json 404 line VUndefined VUndefined
     else
       question <- findQuestionById questionId ;;
       if negb (truthy question) then
         line <- lift (template [Lit "Question "; Val questionId; Lit " not found"]) ;;
         json 404 line VUndefined VUndefined
       else
         d <- lift (formatQuestionResponse question) ;;
         json 200 [Lit "Found question"] d VUndefined)
    (fun err =>
       console_error err ;;
       json 500 [Lit "Unknown error when getting question!"] VUndefined VUndefined).

(** [questions.map(formatQuestionResponse)]; only an array has [map]. *)
Definition format_all (questions : value) : res value :=
  match questions with
  | VArr elems =>
      let* formatted := map_res formatQuestionResponse elems in
      Ok (VArr formatted)
  | VUndefined | VNull => member questions "map"
  | _ => Throw (TypeError "questions.map is not a function")
  end.

(** [getAllQuestions(req, res)]. *)
Definition getAllQuestions : C Response :=
  try_catch
    (questions <- findAllQuestions ;;
     len <- lift (member questions "length") ;;
     line <- lift (template [Lit "Found "; Val len; Lit " questions"]) ;;
     d <- lift (format_all questions) ;;
     json 200 line d VUndefined)
    (fun err =>
       console_error err ;;
       json 500 [Lit "Unknown error when getting all questions!"]
         VUndefined VUndefined).

(** [deleteQuestion(req, res)], as a function of [req.params]. *)
Definition deleteQuestion (params : value) : C Response :=
  try_catch
    (questionId <- lift (member params "id") ;;
     valid <- ask (fun e => Ok (isValidObjectId e questionId)) ;;
     if negb valid then
       line <- lift (template [Lit "Question "; Val questionId; Lit " not found"]) ;;
       json 404 line VUndefined VUndefined
     else
       question <- findQuestionById questionId ;;
       if negb (truthy question) then
         line <- lift (template [Lit "Question "; Val questionId; Lit " not found"]) ;;
         json 404 line VUndefined VUndefined
       else
         questionExamples <- lift (member question "examples") ;;
         keys <- ask (fun e => collectImageKeys e questionExamples) ;;
         call (Delete questionId) (fun e => _deleteQuestionById e questionId) ;;
         call (Destroy keys)
           (fun e => match destroyCloudinaryKeys e keys with
                     | None => Ok tt
                     | Some x => Throw x
                     end) ;;
         line <- lift (template [Lit "Deleted question "; Val questionId;
                                 Lit " successfully"]) ;;
         json 200 line VUndefined VUndefined)
    (fun err =>
       console_error err ;;
       json 500 [Lit "Unknown error when deleting question!"]
         VUndefined VUndefined).

Fixpoint creates (t : list event) : list Fields :=
  match t with
  | [] => []
  | Create fields :: rest => fields :: creates rest
  | _ :: rest => creates rest
  end.

Fixpoint updates (t : list event) : list (value * Fields) :=
  match t with
  | [] => []
  | Update id fields :: rest => (id, fields) :: updates rest
  | _ :: rest => updates rest
  end.

Fixpoint deletes (t : list event) : list value :=
  match t with
  | [] => []
  | Delete id :: rest => id :: deletes rest
  | _ :: rest => deletes rest
  end.

Fixpoint destroys (t : list event) : list (list string) :=
  match t with
  | [] => []
  | Destroy keys :: rest => keys :: destroys rest
  | _ :: rest => destroys rest
  end.

Close Scope crud_scope.

End Crud.

(** ** Sample CRUD requests and collaborators *)

Module CrudSample.

(** [{ input: "nums = [2,7]", output: "[0,1]", image: { key: "old.png" } }]. *)
Definition stored_example : value :=
  VObj [("input", VStr "nums = [2,7]"); ("output", VStr "[0,1]");
        ("image", VObj [("url", VStr "https://img/old.png"); ("key", VStr "old.png")])].

Definition stored : value :=
  VObj [("_id", VStr "65f0c1"); ("id", VStr "65f0c1"); ("title", VStr "Two Sum");
        ("difficulty", VStr "Easy"); ("topics", VArr [VStr "Arrays"]);
        ("examples", VArr [stored_example])].

Definition body : value :=
  VObj [("title", VStr "Two Sum");
        ("difficulty", VStr "Easy");
        ("topics", VArr [VStr "Arrays"]);
        ("problemStatement", VStr "Find two numbers that add up to the target.");
        ("constraints", VArr [VStr "2 <= n"]);
        ("examples", VArr [VObj [("input", VStr "nums = [2,7]");
                                 ("output", VStr "[0,1]")]]);
        ("entryPoint", VStr "twoSum");
        ("timeout", VNum 5);
        ("testCases", VArr [VObj [("args", VArr [VArr [VNum 2; VNum 7]; VNum 9]);
                                  ("expected", VArr [VNum 0; VNum 1])]])].

(** The same body with a title of spaces only. *)
Definition blank_title : value :=
  VObj [("title", VStr "   ");
        ("difficulty", VStr "Easy");
        ("topics", VArr [VStr "Arrays"]);
        ("problemStatement", VStr "Find two numbers that add up to the target.");
        ("constraints", VArr [VStr "2 <= n"]);
        ("examples", VArr [VObj [("input", VStr "nums = [2,7]");
                                 ("output", VStr "[0,1]")]]);
        ("entryPoint", VStr "twoSum");
        ("testCases", VArr [VObj [("args", VArr []); ("expected", VNum 1)]])].

Definition params : value := VObj [("id", VStr "65f0c1")].

(** The image keys of a list of examples. *)
Definition image_keys (examples : value) : res (list string) :=
  match examples with
  | VArr exs =>
      Ok (flat_map (fun ex => match field (field ex "image") "key" with
                              | VStr k => [k]
                              | _ => []
                              end) exs)
  | _ => Ok []
  end.

Definition saved (id : value) (fields : Crud.Fields) : value :=
  VObj [("_id", id); ("id", id); ("title", Crud.f_title fields);
        ("examples", Crud.f_examples fields)].

(** A store that holds [stored] under every valid id and no question with the
    title asked for. *)
Definition fresh : Crud.env :=
  {| Crud.isValidObjectId := fun v => match v with VStr _ => true | _ => false end;
     Crud._findQuestionByTitle := fun _ => Ok VNull;
     Crud._findQuestionById := fun _ => Ok stored;
     Crud._findAllQuestions := Ok (VArr [stored; stored]);
     Crud._createQuestion := fun fields => Ok (saved (VStr "65f0c9") fields);
     Crud._updateQuestionById := fun id fields => Ok (saved id fields);
     Crud._deleteQuestionById := fun _ => Ok VNull;
     Crud.sanitizeExamplesForSave := fun examples => Ok examples;
     Crud.collectImageKeys := image_keys;
     Crud.destroyCloudinaryKeys := fun _ => None;
     Crud.Number := fun v => match v with
                             | VNum q => Ok (Crud.Finite q)
                             | _ => Ok Crud.NaN
                             end;
     Crud.toString := fun _ => Ok "" |}.

(** What [createQuestion] and [updateQuestion] hand to the store for [body]. *)
Definition fields : Crud.Fields :=
  {| Crud.f_title := VStr "Two Sum";
     Crud.f_difficulty := VStr "Easy";
     Crud.f_topics := VArr [VStr "Arrays"];
     Crud.f_problemStatement := VStr "Find two numbers that add up to the target.";
     Crud.f_constraints := VArr [VStr "2 <= n"];
     Crud.f_examples := VArr [VObj [("input", VStr "nums = [2,7]");
                                    ("output", VStr "[0,1]")]];
     Crud.f_codeSnippets := VUndefined;
     Crud.f_entryPoint := VStr "twoSum";
     Crud.f_timeout := Crud.Finite 5;
     Crud.f_signature := VUndefined;
     Crud.f_testCases :=
       VArr [VObj [("args", VArr [VArr [VNum 2; VNum 7]; VNum 9]);
                   ("expected", VArr [VNum 0; VNum 1]);
                   ("hidden", VBool false)]] |}.

End CrudSample.

(** ** Basic facts about the value operations *)

Lemma truthy_member (v : value) (name : string) :
  truthy v = true -> exists x, member v name = Ok x.
Proof.
  destruct v; simpl; intros H; try discriminate; eauto.
Qed.

Lemma member_twice (v : value) (n1 n2 : string) (x : value) :
  member v n1 = Ok x -> exists y, member v n2 = Ok y.
Proof.
  destruct v; simpl; intros H; try discriminate; eauto.
Qed.

Lemma truthy_string (s : string) : s <> "" -> truthy (VStr s) = true.
Proof.
  intros H. simpl. destruct (String.eqb_spec s ""); [contradiction|reflexivity].
Qed.

Lemma first_topic_string (r : MatchRequest) : stringifiable (first_topic r) = true.
Proof.
  unfold first_topic. destruct (req_topics r); reflexivity.
Qed.

Lemma stringify_error_reply (c m : string) :
  JSON_stringify (reply (VStr c) "error" VNull m) =
  VObj [("correlationId", VStr c); ("status", VStr "error"); ("data", VNull);
        ("message", VStr m)].
Proof. reflexivity. Qed.

Lemma stringify_reply_correlationId (c st : string) (d : value) (m : string) :
  member (JSON_stringify (reply (VStr c) st d m)) "correlationId" = Ok (VStr c).
Proof. destruct d; reflexivity. Qed.

Lemma stringify_reply_status (c : value) (st : string) (d : value) (m : string) :
  member (JSON_stringify (reply c st d m)) "status" = Ok (VStr st).
Proof. destruct c, d; reflexivity. Qed.

Lemma format_shape (question d : value) :
  formatQuestionResponse question = Ok d ->
  exists id rest, d = VObj (("id", id) :: rest) /\
    member question "id" = Ok id /\
    member d "_id" = Ok VUndefined /\
    map fst rest =
      ["title"; "difficulty"; "topics"; "problemStatement"; "constraints";
       "examples"; "codeSnippets"; "entryPoint"; "timeout"; "signature";
       "testCases"].
Proof.
  destruct question; simpl; intros H; try discriminate;
    injection H as <-; eexists; eexists; repeat split.
Qed.

Lemma stringify_reply_data (c : value) (st : string) (question d : value)
    (m : string) :
  formatQuestionResponse question = Ok d ->
  member (JSON_stringify (reply c st d m)) "data" = Ok (JSON_stringify d).
Proof.
  intros H. destruct (format_shape _ _ H) as (id & rest & -> & _).
  destruct c; reflexivity.
Qed.

Lemma decodes_accepted (message : value) (r : MatchRequest) :
  decodes message r -> req_difficulty r <> "" ->
  exists meta, accepted message r meta.
Proof.
  intros (Hc & meta & Hm & Hd & Ht) Hne. exists meta.
  constructor; auto using truthy_string, first_topic_string.
Qed.

Lemma decodes_encode (r : MatchRequest) : decodes (encode r) r.
Proof.
  split; [reflexivity|]. eexists. repeat split.
Qed.

Lemma includes_truthy (l : list string) (v : value) :
  includes l v = true -> ~ In "" l -> truthy v = true.
Proof.
  destruct v; simpl; try discriminate.
  intros H Hn. apply existsb_exists in H. destruct H as (x & Hin & Heq).
  apply String.eqb_eq in Heq. subst x.
  apply truthy_string. intros ->. contradiction.
Qed.

Lemma TOPICS_nonempty : ~ In "" TOPICS.
Proof. simpl. intuition discriminate. Qed.

Lemma empty_result_false (randomQuestion : value) :
  empty_result randomQuestion = false ->
  truthy randomQuestion = true /\
  exists len, member randomQuestion "length" = Ok len /\
              strict_eq_zero len = false.
Proof.
  unfold empty_result. destruct (truthy randomQuestion) eqn:Ht; [|discriminate].
  destruct (truthy_member randomQuestion "length" Ht) as [len Hlen].
  rewrite Hlen. simpl. eauto.
Qed.

Lemma member_throws (v : value) (name : string) (x : exn) :
  member v name = Throw x -> exists what, x = TypeError what.
Proof.
  destruct v; simpl; intros H; try discriminate; injection H as <-; eauto.
Qed.

Lemma element_throws (v : value) (i : nat) (x : exn) :
  element v i = Throw x -> exists what, x = TypeError what.
Proof.
  destruct v; simpl; intros H; try discriminate; injection H as <-; eauto.
Qed.

Example array_is_truthy : truthy (VArr []) = true.
Proof. reflexivity. Qed.

Example empty_string_is_falsy : truthy (VStr "") = false.
Proof. reflexivity. Qed.

Example first_of_empty_array : element (VArr []) 0 = Ok VUndefined.
Proof. reflexivity. Qed.

Example first_of_object : element (VObj [("0", VStr "Graphs")]) 0 = Ok (VStr "Graphs").
Proof. reflexivity. Qed.

Example null_is_empty_result : empty_result VNull = true.
Proof. reflexivity. Qed.

Example empty_array_is_empty_result : empty_result (VArr []) = true.
Proof. reflexivity. Qed.

Example own_toString_blocks_conversion :
  stringifiable (VObj [("toString", VNum 1)]) = false.
Proof. reflexivity. Qed.

Example stringify_omits_undefined :
  JSON_stringify (VObj [("id", VUndefined); ("title", VStr "Q1")]) =
  VObj [("title", VStr "Q1")].
Proof. reflexivity. Qed.

(** ** Publish attempts *)

Opaque member element truthy strict_eq_zero stringifiable JSON_stringify
  formatQuestionResponse includes.

(** Case analysis on the atomic observations a run depends on, in the order
    they become closed terms of the goal. *)
Ltac split_atom :=
  match goal with
  | |- context [member ?v ?n] => destruct (member v n) eqn:?
  | |- context [element ?v ?i] => destruct (element v i) eqn:?
  | |- context [truthy ?v] => destruct (truthy v) eqn:?
  | |- context [strict_eq_zero ?v] => destruct (strict_eq_zero v) eqn:?
  | |- context [stringifiable ?v] => destruct (stringifiable v) eqn:?
  | |- context [formatQuestionResponse ?q] =>
      destruct (formatQuestionResponse q) eqn:?
  | |- context [_findRandomQuestion ?e ?d ?t] =>
      destruct (_findRandomQuestion e d t) eqn:?
  | |- context [producer_send ?e ?n ?r] => destruct (producer_send e n r) eqn:?
  end.

Ltac split_run := repeat (simpl; split_atom); simpl.

Ltac unfold_handler :=
  unfold published, trace, outcome, run, handleMatchingRequest, bind, lift, ret,
    try_catch, console, emit, send, findRandomQuestion.

(** Runs the handler up to the store query on a decoded request. *)
Ltac with_request A :=
  destruct A as [Hcid Hmeta Hdiff Htopics Hpresent Harray Hfirst Hlog1 Hlog2 Hlog3];
  unfold_handler;
  repeat (simpl;
          first [ rewrite Hcid | rewrite Hmeta | rewrite Hdiff | rewrite Htopics
                | rewrite Hpresent | rewrite Harray | rewrite Hfirst
                | rewrite Hlog1 | rewrite Hlog2 | rewrite Hlog3 ]);
  simpl.

Ltac rew_step :=
  match goal with
  | H : member _ _ = _ |- _ => rewrite H
  | H : element _ _ = _ |- _ => rewrite H
  | H : truthy _ = _ |- _ => rewrite H
  | H : stringifiable _ = _ |- _ => rewrite H
  | H : includes _ _ = _ |- _ => rewrite H
  | H : strict_eq_zero _ = _ |- _ => rewrite H
  | H : formatQuestionResponse _ = _ |- _ => rewrite H
  | H : _findRandomQuestion _ _ _ = _ |- _ => rewrite H
  | H : forall record, producer_send _ 0 record = None |- _ => rewrite H
  end.

Ltac rew_run := repeat (simpl; rew_step); simpl.

Ltac bus_accepts H :=
  try match goal with
      | H' : producer_send _ 0 _ = Some _ |- _ => rewrite H in H'; discriminate
      end.



(** ** Replies to well-formed requests *)

(** C1. A message that decodes to a [MatchRequest] and passes the handler's
    presence guard (the difficulty is a non-empty string) gets exactly one
    reply on [question-replies], bearing the correlation id of the request,
    whatever the store does (returns a record, returns none, throws); the
    handler returns normally.  The reply is delivered provided the bus
    accepts the publish. *)
Theorem exactly_one_reply (message : value) (r : MatchRequest) (e : env) :
  decodes message r ->
  req_difficulty r <> "" ->
  accepts_first e ->
  outcome message e = Ok tt /\
  exists payload,
    published (trace message e) =
      [{| topic := "question-replies"; messages := [payload] |}] /\
    member payload "correlationId" = Ok (VStr (req_correlationId r)).
Proof.
  intros Hdec Hne Hbus.
  destruct (decodes_accepted _ _ Hdec Hne) as [meta A].
  with_request A.
  split_run; bus_accepts Hbus;
    (split; [reflexivity|]); eexists; (split; [reflexivity|]);
    apply stringify_reply_correlationId.
Qed.

(** C5. When the store query throws on a decoded request, the handler
    catches the exception, returns normally and makes exactly one publish
    attempt: the reply with [status=error], [data=null] and the fixed generic
    message, in which the thrown value [x] does not occur. *)
Theorem store_fault_generic_reply (message : value) (r : MatchRequest) (e : env)
    (x : exn) :
  decodes message r ->
  req_difficulty r <> "" ->
  _findRandomQuestion e (VStr (req_difficulty r)) (first_topic r) = Throw x ->
  outcome message e = Ok tt /\
  exists ok,
    attempts (trace message e) =
      [({| topic := "question-replies";
           messages :=
             [VObj [("correlationId", VStr (req_correlationId r));
                    ("status", VStr "error");
                    ("data", VNull);
                    ("message",
                     VStr "An internal error occurred in the Question Service.")]]
        |}, ok)] /\
    (accepts_first e -> ok = true).
Proof.
  intros Hdec Hne Hstore.
  destruct (decodes_accepted _ _ Hdec Hne) as [meta A].
  with_request A. rewrite Hstore.
  split_run; (split; [reflexivity|]); eexists;
    (split; [unfold reply_record; rewrite stringify_error_reply; reflexivity|]);
    intros Hbus; bus_accepts Hbus; reflexivity.
Qed.

(** C6 (amended). When the store returns no record (a falsy value such as
    [null], or a result of length 0) for a decoded request, the handler
    returns normally and its reply has [status=error], [data=null] and the
    message "No questions found matching the criteria."; once that publish is
    accepted nothing else is published. *)
Theorem no_match_reply (message : value) (r : MatchRequest) (e : env)
    (randomQuestion : value) :
  decodes message r ->
  req_difficulty r <> "" ->
  _findRandomQuestion e (VStr (req_difficulty r)) (first_topic r) =
    Ok randomQuestion ->
  empty_result randomQuestion = true ->
  outcome message e = Ok tt /\
  exists ok rest,
    attempts (trace message e) =
      ({| topic := "question-replies";
          messages :=
            [VObj [("correlationId", VStr (req_correlationId r));
                   ("status", VStr "error");
                   ("data", VNull);
                   ("message", VStr "No questions found matching the criteria.")]]
       |}, ok) :: rest /\
    (ok = true -> rest = []).
Proof.
  intros Hdec Hne Hstore Hempty.
  destruct (decodes_accepted _ _ Hdec Hne) as [meta A].
  with_request A. rewrite Hstore.
  revert Hempty. unfold empty_result.
  split_run; intros Hempty; try discriminate;
    (split; [reflexivity|]); eexists; eexists;
    (split; [unfold reply_record; rewrite stringify_error_reply; reflexivity|]);
    intros Hok; try discriminate; reflexivity.
Qed.

(** C10. A decoded request whose topic list is empty passes the guard: the
    malformed-request warning is not logged, the store is queried with the
    difficulty and [undefined] as topic, and a publish is attempted; when the
    bus accepts it, exactly one reply is published. *)
Theorem empty_topics_not_malformed (message : value) (r : MatchRequest) (e : env) :
  decodes message r ->
  req_difficulty r <> "" ->
  req_topics r = [] ->
  ~ In (Console LWarn [Lit "Received invalid matching request (missing fields):";
                       Val message]) (trace message e) /\
  queries (trace message e) = [(VStr (req_difficulty r), VUndefined)] /\
  attempts (trace message e) <> [] /\
  (accepts_first e -> List.length (published (trace message e)) = 1%nat).
Proof.
  intros Hdec Hne Htopics0.
  destruct (decodes_accepted _ _ Hdec Hne) as [meta A].
  assert (Hundef : first_topic r = VUndefined)
    by (unfold first_topic; rewrite Htopics0; reflexivity).
  with_request A. rewrite Hundef.
  split_run; repeat split; try discriminate;
    try (intros Hbus; bus_accepts Hbus; reflexivity);
    intros Hin; simpl in Hin; intuition discriminate.
Qed.

(** ** Malformed envelopes *)

Lemma member_object (props : list (string * value)) (name : string) :
  member (VObj props) name = Ok (lookup name props).
Proof. reflexivity. Qed.

(** C4. A message whose [meta.difficulty] or [meta.topics] is missing (absent,
    or otherwise falsy, which is what the guard tests) causes no publish
    attempt and no store query; when [meta] is an object the handler logs
    the warning and returns normally. *)
Theorem malformed_envelope_silence (message : value) (e : env) :
  truthy (meta_field message "difficulty") = false \/
  truthy (meta_field message "topics") = false ->
  attempts (trace message e) = [] /\
  queries (trace message e) = [] /\
  (forall props,
      member message "meta" = Ok (VObj props) ->
      outcome message e = Ok tt /\
      trace message e =
        [Console LWarn [Lit "Received invalid matching request (missing fields):";
                        Val message]]).
Proof.
  unfold meta_field. intros H. unfold_handler. revert H.
  split_run; intros [H|H]; try congruence;
    (split; [reflexivity | split; [reflexivity | intros ps Hobj]]);
    try (split; reflexivity); try congruence;
    match goal with
    | H1 : member message "meta" = Ok _,
      H2 : member message "correlationId" = Throw _ |- _ =>
        destruct (member_twice _ _ "correlationId" _ H1); congruence
    | H2 : member ?m _ = Throw _ |- _ =>
        injection Hobj as ->; rewrite member_object in H2; discriminate
    end.
Qed.

(** A decoded request never makes the handler throw, whatever the store and
    the bus do. *)
Lemma decoded_request_returns (message : value) (r : MatchRequest) (e : env) :
  decodes message r -> req_difficulty r <> "" -> outcome message e = Ok tt.
Proof.
  intros Hdec Hne.
  destruct (decodes_accepted _ _ Hdec Hne) as [meta A].
  with_request A.
  split_run; reflexivity.
Qed.

(** The only exceptions that leave the handler are the [TypeError]s raised
    while the message is taken apart and the first log line is rendered,
    before the [try] block: at that point nothing has been queried or
    published.  Faults of the store and of the bus never escape. *)
Lemma escapes_only_before_try (message : value) (e : env) (x : exn) :
  outcome message e = Throw x ->
  (exists what, x = TypeError what) /\
  queries (trace message e) = [] /\
  attempts (trace message e) = [].
Proof.
  unfold_handler.
  split_run; intros H; try discriminate;
    injection H as <-; (split; [|split; reflexivity]);
    eauto using member_throws, element_throws.
Qed.

(** ** Criteria validation *)

(** The bus handler queries the store with whatever difficulty and first topic
    a decoded request carries. *)
Lemma query_invoked (message : value) (r : MatchRequest) (e : env) :
  decodes message r ->
  req_difficulty r <> "" ->
  queries (trace message e) = [(VStr (req_difficulty r), first_topic r)].
Proof.
  intros Hdec Hne.
  destruct (decodes_accepted _ _ Hdec Hne) as [meta A].
  with_request A.
  split_run; reflexivity.
Qed.

(** ** The shared formatter *)

(** C9. For a request that both surfaces accept and a store result with a
    first record [question], the [data] of the published success reply and the
    [data] of the HTTP 200 response are the same document, the serialisation
    of [formatQuestionResponse question]; that document has no [_id] field and
    its [id] field is the [id] of the record. *)
Theorem reply_and_crud_share_format (message : value) (r : MatchRequest)
    (e : env) (query randomQuestion question formatted : value) :
  decodes message r ->
  accepts_first e ->
  member query "difficulty" = Ok (VStr (req_difficulty r)) ->
  member query "topics" = Ok (first_topic r) ->
  includes DIFFICULTIES (VStr (req_difficulty r)) = true ->
  includes TOPICS (first_topic r) = true ->
  _findRandomQuestion e (VStr (req_difficulty r)) (first_topic r) =
    Ok randomQuestion ->
  empty_result randomQuestion = false ->
  element randomQuestion 0 = Ok question ->
  formatQuestionResponse question = Ok formatted ->
  (exists payload,
      published (trace message e) =
        [{| topic := "question-replies"; messages := [payload] |}] /\
      member payload "status" = Ok (VStr "success") /\
      member payload "data" = Ok (JSON_stringify formatted)) /\
  (exists response,
      fst (run (getRandomQuestion query) e) = Ok response /\
      status response = 200%nat /\
      data response = JSON_stringify formatted) /\
  member formatted "_id" = Ok VUndefined /\
  member formatted "id" = member question "id".
Proof.
  intros Hdec Hbus Hq1 Hq2 Hin1 Hin2 Hstore Hempty Hrecord Hformat.
  assert (Hne : req_difficulty r <> "").
  { intros Heq. rewrite Heq in Hin1. vm_compute in Hin1. discriminate. }
  destruct (decodes_accepted _ _ Hdec Hne) as [meta A].
  destruct (empty_result_false _ Hempty) as (Htruthy & len & Hlen & Hzero).
  pose proof (includes_truthy _ _ Hin2 TOPICS_nonempty) as Htopic.
  unfold accepts_first in Hbus.
  destruct (format_shape _ _ Hformat) as (id & rest & Hshape & Hid & Hnoid & _).
  repeat split.
  - with_request A. rew_run. eexists. split; [reflexivity|]. split.
    + apply stringify_reply_status.
    + eapply stringify_reply_data; eassumption.
  - destruct A as [_ _ _ _ Hpresent _ _ _ Hlog2 Hlog3].
    unfold run, getRandomQuestion, try_catch, bind, lift, ret, json,
      findRandomQuestion.
    rew_run. eexists. repeat split.
  - exact Hnoid.
  - rewrite Hshape, Hid. reflexivity.
Qed.

Transparent member element truthy strict_eq_zero stringifiable JSON_stringify
  formatQuestionResponse includes.

Lemma exactly_one_reply_witness :
  decodes (encode Sample.request) Sample.request /\
  req_difficulty Sample.request <> "" /\
  accepts_first Sample.found /\
  outcome (encode Sample.request) Sample.found = Ok tt /\
  exists payload,
    published (trace (encode Sample.request) Sample.found) =
      [{| topic := "question-replies"; messages := [payload] |}] /\
    member payload "correlationId" = Ok (VStr "abc-1").
Proof.
  assert (Hd : decodes (encode Sample.request) Sample.request)
    by apply decodes_encode.
  assert (Hn : req_difficulty Sample.request <> "") by discriminate.
  assert (Hb : accepts_first Sample.found) by (intros record; reflexivity).
  repeat (split; [assumption|]).
  exact (exactly_one_reply _ _ _ Hd Hn Hb).
Defined.

(** The guard reads presence as truthiness: an empty difficulty is dropped
    like an absent one. *)
Example empty_difficulty_is_missing :
  run (handleMatchingRequest
         (encode {| req_correlationId := "abc-6"; req_difficulty := "";
                    req_topics := ["Graphs"] |})) Sample.found =
  (Ok tt,
   [Console LWarn
      [Lit "Received invalid matching request (missing fields):";
       Val (encode {| req_correlationId := "abc-6"; req_difficulty := "";
                      req_topics := ["Graphs"] |})]]).
Proof. reflexivity. Qed.

(** C2 (the code at the failing input). The bus handler passes the
    unrecognised difficulty "Extreme" to the store query, whereas
    [getRandomQuestion] rejects the same criteria with status 404 before any
    query. *)
Theorem unknown_difficulty_reaches_store (e : env) :
  includes DIFFICULTIES (VStr "Extreme") = false /\
  queries (trace (encode Sample.extreme) e) = [(VStr "Extreme", VStr "Graphs")] /\
  run (getRandomQuestion Sample.extreme_query) e =
    (Ok {| status := 404;
           message := [Lit "Invalid difficulty level: "; Val (VStr "Extreme")];
           data := VUndefined |}, []).
Proof.
  split; [reflexivity|]. split; [|reflexivity].
  apply (query_invoked (encode Sample.extreme) Sample.extreme e).
  - apply decodes_encode.
  - discriminate.
Qed.


Lemma malformed_envelope_silence_witness :
  (truthy (meta_field Sample.no_difficulty "difficulty") = false \/
   truthy (meta_field Sample.no_difficulty "topics") = false) /\
  attempts (trace Sample.no_difficulty Sample.found) = [] /\
  queries (trace Sample.no_difficulty Sample.found) = [] /\
  (forall props,
      member Sample.no_difficulty "meta" = Ok (VObj props) ->
      outcome Sample.no_difficulty Sample.found = Ok tt /\
      trace Sample.no_difficulty Sample.found =
        [Console LWarn [Lit "Received invalid matching request (missing fields):";
                        Val Sample.no_difficulty]]).
Proof.
  assert (H : truthy (meta_field Sample.no_difficulty "difficulty") = false \/
              truthy (meta_field Sample.no_difficulty "topics") = false)
    by (left; reflexivity).
  split; [assumption|].
  exact (malformed_envelope_silence Sample.no_difficulty Sample.found H).
Defined.

Lemma store_fault_generic_reply_witness :
  decodes (encode Sample.request) Sample.request /\
  req_difficulty Sample.request <> "" /\
  _findRandomQuestion Sample.fault (VStr "Medium") (first_topic Sample.request) =
    Throw (Failure (VStr "ECONNREFUSED")) /\
  outcome (encode Sample.request) Sample.fault = Ok tt /\
  exists ok,
    attempts (trace (encode Sample.request) Sample.fault) =
      [({| topic := "question-replies";
           messages :=
             [VObj [("correlationId", VStr "abc-1");
                    ("status", VStr "error");
                    ("data", VNull);
                    ("message",
                     VStr "An internal error occurred in the Question Service.")]]
        |}, ok)] /\
    (accepts_first Sample.fault -> ok = true).
Proof.
  assert (Hd : decodes (encode Sample.request) Sample.request)
    by apply decodes_encode.
  assert (Hn : req_difficulty Sample.request <> "") by discriminate.
  assert (Hs : _findRandomQuestion Sample.fault (VStr (req_difficulty Sample.request))
                 (first_topic Sample.request) =
               Throw (Failure (VStr "ECONNREFUSED"))) by reflexivity.
  repeat (split; [assumption|]).
  exact (store_fault_generic_reply _ _ _ _ Hd Hn Hs).
Defined.

(** C6 (counterexample). On the no-record path the message of the reply is not
    the lower-case text. *)
Lemma no_match_message_capitalised :
  exists payload,
    published (trace (encode Sample.request) Sample.nothing) =
      [{| topic := "question-replies"; messages := [payload] |}] /\
    member payload "status" = Ok (VStr "error") /\
    member payload "message" <>
      Ok (VStr "no questions found matching the criteria.").
Proof.
  eexists. split; [vm_compute; reflexivity|]. split; [reflexivity|].
  simpl. discriminate.
Qed.

Lemma no_match_reply_witness :
  decodes (encode Sample.request) Sample.request /\
  req_difficulty Sample.request <> "" /\
  _findRandomQuestion Sample.nothing (VStr "Medium") (first_topic Sample.request) =
    Ok VNull /\
  empty_result VNull = true /\
  outcome (encode Sample.request) Sample.nothing = Ok tt /\
  exists ok rest,
    attempts (trace (encode Sample.request) Sample.nothing) =
      ({| topic := "question-replies";
          messages :=
            [VObj [("correlationId", VStr "abc-1");
                   ("status", VStr "error");
                   ("data", VNull);
                   ("message", VStr "No questions found matching the criteria.")]]
       |}, ok) :: rest /\
    (ok = true -> rest = []).
Proof.
  assert (Hd : decodes (encode Sample.request) Sample.request)
    by apply decodes_encode.
  assert (Hn : req_difficulty Sample.request <> "") by discriminate.
  assert (Hs : _findRandomQuestion Sample.nothing
                 (VStr (req_difficulty Sample.request))
                 (first_topic Sample.request) = Ok VNull) by reflexivity.
  assert (He : empty_result VNull = true) by reflexivity.
  repeat (split; [assumption|]).
  exact (no_match_reply _ _ _ _ Hd Hn Hs He).
Defined.

(** C7 (the code at the failing input). A message without [meta] makes the
    handler throw a [TypeError] at the guard, before the [try] block: the
    exception escapes to the caller and nothing is logged or published. *)
Theorem missing_meta_escapes (e : env) :
  outcome Sample.no_meta e =
    Throw (TypeError "Cannot read properties of undefined: difficulty") /\
  trace Sample.no_meta e = [].
Proof. split; reflexivity. Qed.

Lemma reply_and_crud_share_format_witness :
  decodes (encode Sample.request) Sample.request /\
  accepts_first Sample.found /\
  member Sample.query "difficulty" = Ok (VStr "Medium") /\
  member Sample.query "topics" = Ok (first_topic Sample.request) /\
  includes DIFFICULTIES (VStr "Medium") = true /\
  includes TOPICS (first_topic Sample.request) = true /\
  _findRandomQuestion Sample.found (VStr "Medium") (first_topic Sample.request) =
    Ok (VArr [Sample.Q1]) /\
  empty_result (VArr [Sample.Q1]) = false /\
  element (VArr [Sample.Q1]) 0 = Ok Sample.Q1 /\
  formatQuestionResponse Sample.Q1 = Ok Sample.Q1_public /\
  (exists payload,
      published (trace (encode Sample.request) Sample.found) =
        [{| topic := "question-replies"; messages := [payload] |}] /\
      member payload "status" = Ok (VStr "success") /\
      member payload "data" = Ok (JSON_stringify Sample.Q1_public)) /\
  (exists response,
      fst (run (getRandomQuestion Sample.query) Sample.found) = Ok response /\
      status response = 200%nat /\
      data response = JSON_stringify Sample.Q1_public) /\
  member Sample.Q1_public "_id" = Ok VUndefined /\
  member Sample.Q1_public "id" = member Sample.Q1 "id".
Proof.
  assert (H1 : decodes (encode Sample.request) Sample.request)
    by apply decodes_encode.
  assert (H2 : accepts_first Sample.found) by (intros record; reflexivity).
  assert (H3 : member Sample.query "difficulty" =
               Ok (VStr (req_difficulty Sample.request))) by reflexivity.
  assert (H4 : member Sample.query "topics" = Ok (first_topic Sample.request))
    by reflexivity.
  assert (H5 : includes DIFFICULTIES (VStr (req_difficulty Sample.request)) = true)
    by reflexivity.
  assert (H6 : includes TOPICS (first_topic Sample.request) = true) by reflexivity.
  assert (H7 : _findRandomQuestion Sample.found
                 (VStr (req_difficulty Sample.request))
                 (first_topic Sample.request) = Ok (VArr [Sample.Q1]))
    by reflexivity.
  assert (H8 : empty_result (VArr [Sample.Q1]) = false) by reflexivity.
  assert (H9 : element (VArr [Sample.Q1]) 0 = Ok Sample.Q1) by reflexivity.
  assert (H10 : formatQuestionResponse Sample.Q1 = Ok Sample.Q1_public)
    by reflexivity.
  repeat (split; [assumption|]).
  exact (reply_and_crud_share_format _ _ _ _ _ _ _ H1 H2 H3 H4 H5 H6 H7 H8 H9 H10).
Defined.

Lemma empty_topics_not_malformed_witness :
  decodes (encode Sample.no_topics) Sample.no_topics /\
  req_difficulty Sample.no_topics <> "" /\
  req_topics Sample.no_topics = [] /\
  ~ In (Console LWarn [Lit "Received invalid matching request (missing fields):";
                       Val (encode Sample.no_topics)])
       (trace (encode Sample.no_topics) Sample.nothing) /\
  queries (trace (encode Sample.no_topics) Sample.nothing) =
    [(VStr "Medium", VUndefined)] /\
  attempts (trace (encode Sample.no_topics) Sample.nothing) <> [] /\
  (accepts_first Sample.nothing ->
   List.length (published (trace (encode Sample.no_topics) Sample.nothing)) = 1%nat).
Proof.
  assert (Hd : decodes (encode Sample.no_topics) Sample.no_topics)
    by apply decodes_encode.
  assert (Hn : req_difficulty Sample.no_topics <> "") by discriminate.
  assert (Ht : req_topics Sample.no_topics = []) by reflexivity.
  repeat (split; [assumption|]).
  exact (empty_topics_not_malformed _ _ Sample.nothing Hd Hn Ht).
Defined.

(** ** Uniform selection *)

Lemma count_seq (i n : nat) :
  List.length (filter (fun seed => seed =? i)%nat (seq 0 n)) =
  if (i <? n)%nat then 1%nat else 0%nat.
Proof.
  induction n as [|n IH]; [reflexivity|].
  rewrite seq_S, filter_app, length_app, IH. simpl.
  destruct (Nat.eqb_spec n i) as [->|Hne].
  - rewrite Nat.ltb_irrefl.
    destruct (Nat.ltb_spec i (S i)); [reflexivity|lia].
  - destruct (Nat.ltb_spec i n), (Nat.ltb_spec i (S n)); simpl; lia.
Qed.

Lemma pick_count (n i : nat) :
  (i < n)%nat ->
  List.length (filter (fun seed => Store.pick n seed =? i)%nat (seq 0 n)) = 1%nat.
Proof.
  intros Hi.
  rewrite (filter_ext_in _ (fun seed => seed =? i)%nat).
  - rewrite count_seq. destruct (Nat.ltb_spec i n); [reflexivity|lia].
  - intros seed Hin. apply in_seq in Hin. unfold Store.pick.
    rewrite Nat.mod_small by lia. reflexivity.
Qed.

(** C8. With N >= 2 records matching the filter and the seed drawn uniformly,
    the selection returns the match at each of the N positions with
    probability 1/N; in particular it does not always return the first one. *)
Theorem uniform_selection (records : list value) (difficulty topic : value) :
  (2 <= List.length (Store.matching records difficulty topic))%nat ->
  (forall seed,
      Store.findRandomMatch records difficulty topic seed =
      nth_error (Store.matching records difficulty topic)
        (Store.pick (List.length (Store.matching records difficulty topic)) seed)) /\
  (forall i,
      (i < List.length (Store.matching records difficulty topic))%nat ->
      Store.probability (List.length (Store.matching records difficulty topic))
        (fun seed =>
           Store.pick (List.length (Store.matching records difficulty topic)) seed
           =? i)%nat =
      1 # Pos.of_nat (List.length (Store.matching records difficulty topic))) /\
  (exists seed,
      (seed < List.length (Store.matching records difficulty topic))%nat /\
      Store.findRandomMatch records difficulty topic seed =
      nth_error (Store.matching records difficulty topic) 1).
Proof.
  intros Hn. split; [reflexivity|]. split.
  - intros i Hi. unfold Store.probability. rewrite pick_count by exact Hi.
    reflexivity.
  - exists 1%nat. split; [lia|].
    unfold Store.findRandomMatch, Store.pick.
    rewrite Nat.mod_small by lia. reflexivity.
Qed.

Lemma uniform_selection_witness :
  (2 <= List.length
          (Store.matching [Sample.Q1; Sample.Q2; Sample.Q3]
             (VStr "Medium") (VStr "Graphs")))%nat /\
  Store.findRandomMatch [Sample.Q1; Sample.Q2; Sample.Q3]
    (VStr "Medium") (VStr "Graphs") 0 = Some Sample.Q1 /\
  Store.findRandomMatch [Sample.Q1; Sample.Q2; Sample.Q3]
    (VStr "Medium") (VStr "Graphs") 1 = Some Sample.Q2 /\
  Store.probability 2 (fun seed => Store.pick 2 seed =? 1)%nat = 1 # 2.
Proof.
  assert (H : (2 <= List.length
                     (Store.matching [Sample.Q1; Sample.Q2; Sample.Q3]
                        (VStr "Medium") (VStr "Graphs")))%nat)
    by (vm_compute; lia).
  split; [exact H|].
  destruct (uniform_selection [Sample.Q1; Sample.Q2; Sample.Q3]
              (VStr "Medium") (VStr "Graphs") H) as (Hsel & Hprob & _).
  split; [rewrite Hsel; reflexivity|].
  split; [rewrite Hsel; reflexivity|].
  apply (Hprob 1%nat). vm_compute. lia.
Defined.

(** * Further properties of the controller and its callers *)

(** ** Test-case validation *)

Lemma check_index (idx : nat) (tc : value) (p : TestCases.Problem) :
  In p (TestCases.check idx tc) -> TestCases.index p = Z.of_nat idx.
Proof.
  unfold TestCases.check.
  repeat match goal with
         | |- context [if ?b then _ else _] => destruct b
         end; simpl; intros H;
    repeat (destruct H as [H|H]; [subst p; reflexivity|]); contradiction.
Qed.

Lemma forEach_index (testCases : list value) (idx : nat) (p : TestCases.Problem) :
  In p (TestCases.forEach idx testCases) ->
  (Z.of_nat idx <= TestCases.index p < Z.of_nat (idx + List.length testCases))%Z.
Proof.
  revert idx. induction testCases as [|tc rest IH]; intros idx H; [contradiction|].
  simpl in H. apply in_app_or in H. destruct H as [H|H].
  - apply check_index in H. simpl. lia.
  - apply IH in H. simpl. lia.
Qed.

(** X1. For a non-empty array, every problem reported by
    [validateFunctionTestCases] points at a position of the array; for any
    other input the report is exactly the single problem with index -1,
    "At least one test case is required.". *)
Theorem validate_index_in_range (testCases : value) :
  (forall tc rest,
      testCases = VArr (tc :: rest) ->
      forall p,
        In p (TestCases.validateFunctionTestCases testCases) ->
        (0 <= TestCases.index p < Z.of_nat (List.length (tc :: rest)))%Z) /\
  ((forall tc rest, testCases <> VArr (tc :: rest)) ->
   TestCases.validateFunctionTestCases testCases =
     [{| TestCases.index := (-1)%Z;
         TestCases.message := "At least one test case is required." |}]).
Proof.
  split.
  - intros tc rest -> p H.
    apply (forEach_index (tc :: rest) 0) in H. simpl in *. lia.
  - intros H. unfold TestCases.validateFunctionTestCases.
    destruct testCases as [| | | | |elems|]; try reflexivity.
    destruct elems as [|tc rest]; [reflexivity|].
    exfalso. apply (H tc rest). reflexivity.
Qed.

Lemma validate_index_in_range_witness :
  (In {| TestCases.index := 1; TestCases.message := "`expected` is required." |}
      (TestCases.validateFunctionTestCases
         (VArr [VObj [("args", VArr []); ("expected", VNum 1)];
                VObj [("args", VArr [])]])) /\
   (0 <= 1 < 2)%Z) /\
  TestCases.validateFunctionTestCases (VArr []) =
    [{| TestCases.index := (-1)%Z;
        TestCases.message := "At least one test case is required." |}] /\
  TestCases.validateFunctionTestCases VNull =
    [{| TestCases.index := (-1)%Z;
        TestCases.message := "At least one test case is required." |}].
Proof.
  assert (H : In {| TestCases.index := 1;
                    TestCases.message := "`expected` is required." |}
                 (TestCases.validateFunctionTestCases
                    (VArr [VObj [("args", VArr []); ("expected", VNum 1)];
                           VObj [("args", VArr [])]])))
    by (left; reflexivity).
  split; [split; [exact H|]|split].
  - exact (proj1 (validate_index_in_range _) _ _ eq_refl _ H).
  - apply (proj2 (validate_index_in_range (VArr []))). discriminate.
  - apply (proj2 (validate_index_in_range VNull)). discriminate.
Defined.

Lemma check_nil_iff (idx : nat) (tc : value) :
  TestCases.check idx tc = [] <-> TestCases.well_formed tc.
Proof.
  unfold TestCases.check, TestCases.well_formed. split.
  - destruct tc as [| |b|q|s|elems|props]; unfold field; simpl;
      rewrite ?orb_true_r; try discriminate.
    destruct (isArray (lookup "args" props)) eqn:Ha; simpl;
      [|intros H; discriminate H].
    destruct (has_own "expected" props) eqn:He; simpl;
      [|intros H; discriminate H].
    destruct (has_own "hidden" props) eqn:Hh; simpl.
    + destruct (is_boolean (lookup "hidden" props)) eqn:Hb; simpl;
        [|intros H; discriminate H].
      intros _. exists props. auto.
    + intros _. exists props. repeat split; auto; congruence.
  - intros (props & -> & Ha & He & Hh). unfold field. simpl.
    rewrite Ha, He. simpl.
    destruct (has_own "hidden" props); simpl; [|reflexivity].
    rewrite (Hh eq_refl). reflexivity.
Qed.

Lemma forEach_nil_iff (testCases : list value) (idx : nat) :
  TestCases.forEach idx testCases = [] <-> Forall TestCases.well_formed testCases.
Proof.
  revert idx. induction testCases as [|tc rest IH]; intros idx; simpl.
  - split; auto.
  - split.
    + intros H. apply app_eq_nil in H. destruct H as [H1 H2].
      constructor; [apply (check_nil_iff idx), H1 | apply (IH (S idx)), H2].
    + intros H. inversion H as [|x l Hx Hl]; subst.
      apply (check_nil_iff idx) in Hx. apply (IH (S idx)) in Hl.
      rewrite Hx, Hl. reflexivity.
Qed.

(** X2. [validateFunctionTestCases] reports no problem exactly for a non-empty
    array in which every test case is an object with an array [args], an own
    [expected] property and, if it has a [hidden] property, a boolean one. *)
Theorem validate_accepts_iff (testCases : value) :
  TestCases.validateFunctionTestCases testCases = [] <->
  exists tc rest,
    testCases = VArr (tc :: rest) /\
    Forall TestCases.well_formed (tc :: rest).
Proof.
  unfold TestCases.validateFunctionTestCases. split.
  - destruct testCases as [| | | | |elems|]; simpl; try discriminate.
    destruct elems as [|tc rest]; [discriminate|].
    intros H. exists tc, rest. split; [reflexivity|].
    apply (forEach_nil_iff (tc :: rest) 0), H.
  - intros (tc & rest & -> & H). apply (forEach_nil_iff (tc :: rest) 0), H.
Qed.

Lemma clean_well_formed (tc : value) :
  TestCases.well_formed tc ->
  exists tc',
    TestCases.clean tc = Ok tc' /\
    TestCases.well_formed tc' /\
    TestCases.clean tc' = Ok tc'.
Proof.
  intros (props & -> & Ha & He & Hh).
  eexists. split; [reflexivity|]. split.
  - eexists. split; [reflexivity|]. simpl. repeat split; auto.
  - reflexivity.
Qed.

Lemma map_clean_well_formed (testCases : list value) :
  Forall TestCases.well_formed testCases ->
  exists cleaned,
    map_res TestCases.clean testCases = Ok cleaned /\
    Forall TestCases.well_formed cleaned /\
    map_res TestCases.clean cleaned = Ok cleaned /\
    List.length cleaned = List.length testCases.
Proof.
  induction 1 as [|tc rest Htc Hrest (cleaned & H1 & H2 & H3 & H4)].
  - exists []. repeat split. constructor.
  - destruct (clean_well_formed tc Htc) as (tc' & Hc1 & Hc2 & Hc3).
    exists (tc' :: cleaned). simpl. rewrite Hc1, H1, Hc3, H3. simpl.
    repeat split; auto.
Qed.

(** X3. Test cases that pass [validateFunctionTestCases] are cleaned without
    exception by [sanitizeTestCasesForSave]; the cleaned list has the same
    length, passes the validation again, and cleaning it once more changes
    nothing. *)
Theorem sanitize_preserves_validity (testCases : value) :
  TestCases.validateFunctionTestCases testCases = [] ->
  exists cleaned,
    TestCases.sanitizeTestCasesForSave testCases = Ok (VArr cleaned) /\
    TestCases.validateFunctionTestCases (VArr cleaned) = [] /\
    TestCases.sanitizeTestCasesForSave (VArr cleaned) = Ok (VArr cleaned) /\
    member (VArr cleaned) "length" = member testCases "length".
Proof.
  unfold TestCases.validateFunctionTestCases.
  destruct testCases as [| | | | |elems|]; simpl; try discriminate.
  destruct elems as [|tc rest]; [discriminate|].
  intros H. apply (forEach_nil_iff (tc :: rest) 0) in H.
  destruct (map_clean_well_formed _ H) as (cleaned & H1 & H2 & H3 & H4).
  exists cleaned. unfold TestCases.sanitizeTestCasesForSave.
  cbn [isArray]. rewrite H1, H3. simpl. repeat split.
  - destruct cleaned as [|c cs]; [discriminate H4|].
    apply (forEach_nil_iff (c :: cs) 0), H2.
  - rewrite H4. reflexivity.
Qed.

Lemma sanitize_preserves_validity_witness :
  TestCases.validateFunctionTestCases
    (VArr [VObj [("args", VArr [VNum 2; VNum 3]); ("expected", VNum 5);
                 ("note", VStr "sum")]]) = [] /\
  exists cleaned,
    TestCases.sanitizeTestCasesForSave
      (VArr [VObj [("args", VArr [VNum 2; VNum 3]); ("expected", VNum 5);
                   ("note", VStr "sum")]]) = Ok (VArr cleaned) /\
    TestCases.validateFunctionTestCases (VArr cleaned) = [] /\
    TestCases.sanitizeTestCasesForSave (VArr cleaned) = Ok (VArr cleaned) /\
    member (VArr cleaned) "length" =
    member (VArr [VObj [("args", VArr [VNum 2; VNum 3]); ("expected", VNum 5);
                        ("note", VStr "sum")]]) "length".
Proof.
  assert (H : TestCases.validateFunctionTestCases
                (VArr [VObj [("args", VArr [VNum 2; VNum 3]);
                             ("expected", VNum 5); ("note", VStr "sum")]]) = [])
    by reflexivity.
  split; [exact H|].
  exact (sanitize_preserves_validity _ H).
Defined.

Lemma clean_shape (tc tc' : value) :
  TestCases.clean tc = Ok tc' ->
  tc' = VObj [("args", field tc "args");
              ("expected", field tc "expected");
              ("hidden", VBool (truthy (field tc "hidden")))].
Proof.
  destruct tc; simpl; intros H; try discriminate; injection H as <-; reflexivity.
Qed.

Lemma clean_throws_iff (tc : value) :
  (exists x, TestCases.clean tc = Throw x) <-> nullish tc = true.
Proof.
  destruct tc; simpl; split; intros H;
    try reflexivity; try discriminate H; try (eexists; reflexivity);
    destruct H as [x H]; discriminate H.
Qed.

Lemma map_clean_result (testCases : list value) :
  match map_res TestCases.clean testCases with
  | Ok cleaned =>
      existsb nullish testCases = false /\
      cleaned =
        map (fun tc => VObj [("args", field tc "args");
                             ("expected", field tc "expected");
                             ("hidden", VBool (truthy (field tc "hidden")))])
          testCases
  | Throw _ => existsb nullish testCases = true
  end.
Proof.
  induction testCases as [|tc rest IH]; simpl; [auto|].
  destruct (TestCases.clean tc) as [tc'|x] eqn:Hc; simpl.
  - assert (Hn : nullish tc = false).
    { destruct (nullish tc) eqn:Hn; [|reflexivity].
      apply clean_throws_iff in Hn. destruct Hn as [y Hy]. congruence. }
    rewrite Hn. simpl.
    destruct (map_res TestCases.clean rest) as [cleaned|y]; simpl; [|exact IH].
    destruct IH as [IH1 IH2]. split; [exact IH1|].
    rewrite (clean_shape _ _ Hc), IH2. reflexivity.
  - assert (Hn : nullish tc = true) by (apply clean_throws_iff; eauto).
    rewrite Hn. reflexivity.
Qed.

(** X4. [sanitizeTestCasesForSave] throws exactly when the input is an array
    holding a [null] or [undefined] entry.  Otherwise it returns, for an
    array, one object [{ args, expected, hidden }] per entry, in order, with
    [hidden] coerced to a boolean and every other property dropped, and the
    empty list for anything that is not an array. *)
Theorem sanitize_result (testCases : value) :
  match TestCases.sanitizeTestCasesForSave testCases with
  | Ok cleaned =>
      match testCases with
      | VArr elems =>
          existsb nullish elems = false /\
          cleaned =
            VArr (map (fun tc =>
                         VObj [("args", field tc "args");
                               ("expected", field tc "expected");
                               ("hidden", VBool (truthy (field tc "hidden")))])
                    elems)
      | _ => cleaned = VArr []
      end
  | Throw _ => exists elems, testCases = VArr elems /\ existsb nullish elems = true
  end.
Proof.
  unfold TestCases.sanitizeTestCasesForSave.
  destruct testCases as [| | | | |elems|]; simpl; try reflexivity.
  pose proof (map_clean_result elems) as H.
  destruct (map_res TestCases.clean elems) as [cleaned|x]; simpl.
  - destruct H as [H1 H2]. split; [exact H1|]. rewrite H2. reflexivity.
  - exists elems. auto.
Qed.

(** ** Topic pickers *)

Lemma toggle_absent (t : string) (prev : list string) :
  ~ In t prev -> Frontend.toggle t prev = prev ++ [t].
Proof.
  intros H. unfold Frontend.toggle.
  destruct (existsb (String.eqb t) prev) eqn:He; [|reflexivity].
  apply existsb_exists in He. destruct He as (x & Hin & Heq).
  apply String.eqb_eq in Heq. subst x. contradiction.
Qed.

Lemma toggle_present (t : string) (prev : list string) :
  In t prev -> Frontend.toggle t prev = filter (fun x => negb (x =? t)) prev.
Proof.
  intros H. unfold Frontend.toggle.
  destruct (existsb (String.eqb t) prev) eqn:He; [reflexivity|].
  assert (Hex : existsb (String.eqb t) prev = true).
  { apply existsb_exists. exists t. split; [exact H|apply String.eqb_refl]. }
  congruence.
Qed.

Lemma toggle_flips (t x : string) (prev : list string) :
  In x (Frontend.toggle t prev) <->
  (x = t /\ ~ In t prev) \/ (x <> t /\ In x prev).
Proof.
  destruct (in_dec string_dec t prev) as [Hin|Hnin].
  - rewrite (toggle_present _ _ Hin), filter_In. split.
    + intros [Hx Hne]. right. split; [|exact Hx].
      intros ->. rewrite String.eqb_refl in Hne. discriminate.
    + intros [[-> Hn]|[Hne Hx]]; [contradiction|].
      split; [exact Hx|]. destruct (String.eqb_spec x t); [contradiction|reflexivity].
  - rewrite (toggle_absent _ _ Hnin), in_app_iff. simpl. split.
    + intros [Hx|[<-|[]]].
      * right. split; [|exact Hx]. intros ->. contradiction.
      * left. auto.
    + intros [[-> _]|[_ Hx]]; auto.
Qed.

(** X5. The updater of the question form, and [toggleTopic] of the challenge
    page when not queueing, flip whether the clicked topic is selected and
    leave every other topic as it was; while queueing, [toggleTopic] of the
    challenge page leaves the selection unchanged. *)
Theorem toggle_membership (isQueueing : bool) (t x : string) (prev : list string) :
  (In x (Frontend.toggle t prev) <->
   (x = t /\ ~ In t prev) \/ (x <> t /\ In x prev)) /\
  (In x (Frontend.toggleTopic isQueueing t prev) <->
   if isQueueing then In x prev
   else (x = t /\ ~ In t prev) \/ (x <> t /\ In x prev)) /\
  Frontend.toggleTopic true t prev = prev.
Proof.
  split; [apply toggle_flips|]. split; [|reflexivity].
  destruct isQueueing; simpl; [reflexivity|apply toggle_flips].
Qed.

Lemma toggle_NoDup (t : string) (prev : list string) :
  NoDup prev -> NoDup (Frontend.toggle t prev).
Proof.
  intros H. destruct (in_dec string_dec t prev) as [Hin|Hnin].
  - rewrite (toggle_present _ _ Hin). apply NoDup_filter, H.
  - rewrite (toggle_absent _ _ Hnin).
    apply NoDup_app; [exact H | repeat constructor; simpl; tauto |].
    intros x Hx [<-|[]]. contradiction.
Qed.

(** X6. A selection without repeated topics stays without repetition under any
    sequence of clicks, queueing or not. *)
Theorem clicks_keep_selection_duplicate_free (isQueueing : bool)
    (ts selectedTopics : list string) :
  NoDup selectedTopics ->
  NoDup (Frontend.clicks isQueueing ts selectedTopics).
Proof.
  unfold Frontend.clicks. revert selectedTopics.
  induction ts as [|t rest IH]; intros selected H; simpl; [exact H|].
  apply IH. unfold Frontend.toggleTopic.
  destruct isQueueing; [exact H | apply toggle_NoDup, H].
Qed.

Lemma clicks_keep_selection_duplicate_free_witness :
  NoDup ["Strings"] /\
  NoDup (Frontend.clicks false ["Graphs"; "Strings"; "Graphs"; "Heaps"] ["Strings"]).
Proof.
  assert (H : NoDup ["Strings"]) by (repeat constructor; simpl; tauto).
  split; [exact H|].
  exact (clicks_keep_selection_duplicate_free false
           ["Graphs"; "Strings"; "Graphs"; "Heaps"] ["Strings"] H).
Defined.

Lemma filter_out_absent (t : string) (l : list string) :
  ~ In t l -> filter (fun x => negb (x =? t)) l = l.
Proof.
  induction l as [|a l IH]; simpl; intros H; [reflexivity|].
  destruct (String.eqb_spec a t) as [->|Hne]; simpl.
  - exfalso. auto.
  - rewrite IH by tauto. reflexivity.
Qed.

Lemma filter_out_present (t : string) (l : list string) :
  NoDup l -> In t l -> Permutation (filter (fun x => negb (x =? t)) l ++ [t]) l.
Proof.
  induction l as [|a l IH]; intros Hnd Hin; [contradiction|].
  inversion Hnd as [|? ? Ha Hl]; subst. simpl.
  destruct (String.eqb_spec a t) as [->|Hne]; simpl.
  - rewrite (filter_out_absent _ _ Ha).
    rewrite Permutation_app_comm. reflexivity.
  - destruct Hin as [->|Hin]; [contradiction|].
    constructor. apply IH; assumption.
Qed.

(** X7. Toggling the same topic twice restores the selection up to order; it
    restores it exactly when the topic was not selected. *)
Theorem toggle_twice (t : string) (prev : list string) :
  NoDup prev ->
  Permutation (Frontend.toggle t (Frontend.toggle t prev)) prev /\
  (~ In t prev -> Frontend.toggle t (Frontend.toggle t prev) = prev).
Proof.
  intros Hnd.
  assert (Hfresh : ~ In t prev ->
                   Frontend.toggle t (Frontend.toggle t prev) = prev).
  { intros Hnin. rewrite (toggle_absent _ _ Hnin).
    rewrite toggle_present by (apply in_app_iff; simpl; auto).
    rewrite filter_app, (filter_out_absent _ _ Hnin). simpl.
    rewrite String.eqb_refl. simpl. apply app_nil_r. }
  split; [|exact Hfresh].
  destruct (in_dec string_dec t prev) as [Hin|Hnin].
  - rewrite (toggle_present _ _ Hin).
    rewrite toggle_absent.
    + apply filter_out_present; assumption.
    + rewrite filter_In. intros [_ Hne].
      rewrite String.eqb_refl in Hne. discriminate.
  - rewrite (Hfresh Hnin). reflexivity.
Qed.

Lemma toggle_twice_witness :
  NoDup ["Strings"; "Graphs"] /\
  Permutation (Frontend.toggle "Strings" (Frontend.toggle "Strings" ["Strings"; "Graphs"]))
    ["Strings"; "Graphs"] /\
  (~ In "Strings" ["Strings"; "Graphs"] ->
   Frontend.toggle "Strings" (Frontend.toggle "Strings" ["Strings"; "Graphs"]) =
   ["Strings"; "Graphs"]).
Proof.
  assert (H : NoDup ["Strings"; "Graphs"]).
  { repeat constructor; simpl; intuition discriminate. }
  split; [exact H|].
  exact (toggle_twice "Strings" ["Strings"; "Graphs"] H).
Defined.

(** ** What the question form makes of a server response *)

Lemma optional_total (v : value) (name : string) :
  optional v name = Ok (if nullish v then VUndefined else field v name).
Proof. destruct v; reflexivity. Qed.

Lemma member_field (v : value) (name : string) :
  nullish v = false -> member v name = Ok (field v name).
Proof. destruct v; simpl; intros H; try discriminate; reflexivity. Qed.

Lemma coalesce_object (a b : value) :
  nullish (coalesce (coalesce a b) (VObj [])) = false.
Proof. destruct a, b; reflexivity. Qed.

(** X8. [normalizeSaved] never throws, whatever the response is ([null],
    a primitive, a bare or a wrapped record), and the question it returns
    always has an [id] that is truthy or the empty string and truthy
    [constraints], [examples], [codeSnippets] and [testCases]. *)
Theorem normalizeSaved_total (raw : value) :
  exists saved,
    Frontend.normalizeSaved raw = Ok saved /\
    (truthy (field saved "id") = true \/ field saved "id" = VStr "") /\
    truthy (field saved "constraints") = true /\
    truthy (field saved "examples") = true /\
    truthy (field saved "codeSnippets") = true /\
    truthy (field saved "testCases") = true.
Proof.
  unfold Frontend.normalizeSaved.
  rewrite optional_total. cbn [rbind].
  set (data := coalesce (coalesce _ raw) (VObj [])).
  assert (Hd : nullish data = false) by apply coalesce_object.
  rewrite !optional_total, Hd. cbn [rbind].
  rewrite !(member_field data) by exact Hd. cbn [rbind].
  eexists. split; [reflexivity|].
  clear Hd.
  repeat match goal with
         | |- context [field data ?n] => generalize (field data n); intro
         end.
  simpl. unfold or_else.
  repeat split;
    repeat match goal with
           | |- context [if truthy ?v then _ else _] => destruct (truthy v) eqn:?
           end; auto.
Qed.

Lemma format_explicit (question d : value) :
  formatQuestionResponse question = Ok d ->
  d = VObj [("id", field question "id");
            ("title", field question "title");
            ("difficulty", field question "difficulty");
            ("topics", field question "topics");
            ("problemStatement", field question "problemStatement");
            ("constraints", field question "constraints");
            ("examples", field question "examples");
            ("codeSnippets", field question "codeSnippets");
            ("entryPoint", field question "entryPoint");
            ("timeout", field question "timeout");
            ("signature", field question "signature");
            ("testCases", field question "testCases")].
Proof.
  destruct question; simpl; intros H; try discriminate;
    injection H as <-; reflexivity.
Qed.

Lemma stringify_absent (props : list (string * value)) (name : string) :
  ~ In name (map fst props) ->
  member (JSON_stringify (VObj props)) name = Ok VUndefined.
Proof.
  induction props as [|[k x] rest IH]; intros H; [reflexivity|].
  simpl in H. assert (Hk : (k =? name) = false).
  { destruct (String.eqb_spec k name); [|reflexivity]. exfalso. auto. }
  assert (Hrest : member (JSON_stringify (VObj rest)) name = Ok VUndefined)
    by (apply IH; tauto).
  simpl in Hrest |- *.
  destruct x; simpl; rewrite ?Hk; exact Hrest.
Qed.

Lemma stringify_member (props : list (string * value)) (name : string) :
  NoDup (map fst props) ->
  member (JSON_stringify (VObj props)) name =
  Ok (JSON_stringify (lookup name props)).
Proof.
  induction props as [|[k x] rest IH]; intros H; [reflexivity|].
  simpl in H. inversion H as [|? ? Hk Hrest]; subst.
  specialize (IH Hrest).
  destruct (String.eqb_spec k name) as [->|Hne].
  - pose proof (stringify_absent rest name Hk) as Habs.
    simpl in Habs |- *. rewrite String.eqb_refl.
    destruct x; simpl; rewrite ?String.eqb_refl; try reflexivity.
    exact Habs.
  - assert (Hf : (k =? name) = false)
      by (destruct (String.eqb_spec k name); [contradiction|reflexivity]).
    simpl in IH |- *. rewrite Hf.
    destruct x; simpl; rewrite ?Hf; exact IH.
Qed.

Lemma stringify_envelope (m : string) (props : list (string * value)) :
  JSON_stringify (VObj [("message", VStr m); ("data", VObj props)]) =
  VObj [("message", VStr m); ("data", JSON_stringify (VObj props))].
Proof. reflexivity. Qed.

Lemma stringify_object (props : list (string * value)) :
  nullish (JSON_stringify (VObj props)) = false.
Proof. reflexivity. Qed.

Lemma normalizeSaved_bare (w : value) :
  nullish w = false ->
  nullish (field w "data") = true ->
  Frontend.normalizeSaved w =
  Ok (VObj [("id", or_else (or_else (field w "id") (field w "_id")) (VStr ""));
            ("title", field w "title");
            ("difficulty", field w "difficulty");
            ("topics", field w "topics");
            ("problemStatement", field w "problemStatement");
            ("constraints", or_else (field w "constraints") (VArr []));
            ("examples", or_else (field w "examples") (VArr []));
            ("codeSnippets", or_else (field w "codeSnippets") (VArr []));
            ("testCases", or_else (field w "testCases") (VArr []));
            ("entryPoint", or_else (field w "entryPoint") (VStr ""));
            ("signature", field w "signature");
            ("timeout", field w "timeout")]).
Proof.
  intros Hn Hd.
  destruct w as [| | | | | |props]; try discriminate Hn; try reflexivity.
  unfold Frontend.normalizeSaved, optional, field in *. simpl in *.
  destruct (lookup "data" props); try discriminate Hd; reflexivity.
Qed.

Lemma normalizeSaved_wrapped (props : list (string * value)) (w : value) :
  lookup "data" props = w ->
  nullish w = false ->
  Frontend.normalizeSaved (VObj props) =
  Ok (VObj [("id", or_else (or_else (field w "id") (field w "_id")) (VStr ""));
            ("title", field w "title");
            ("difficulty", field w "difficulty");
            ("topics", field w "topics");
            ("problemStatement", field w "problemStatement");
            ("constraints", or_else (field w "constraints") (VArr []));
            ("examples", or_else (field w "examples") (VArr []));
            ("codeSnippets", or_else (field w "codeSnippets") (VArr []));
            ("testCases", or_else (field w "testCases") (VArr []));
            ("entryPoint", or_else (field w "entryPoint") (VStr ""));
            ("signature", field w "signature");
            ("timeout", field w "timeout")]).
Proof.
  intros Hw Hn.
  unfold Frontend.normalizeSaved, optional. simpl. rewrite Hw.
  destruct w; try discriminate Hn; reflexivity.
Qed.

(** X9. The question form recovers the saved record from the response of the
    controller: given the body [{ message, data: formatQuestionResponse(q) }]
    as it arrives, or the bare formatted record, [normalizeSaved] returns the
    same question, whose [id] is the id of the record and whose [title],
    [difficulty] and [topics] are the serialised ones of the record. *)
Theorem normalizeSaved_of_response (question d : value) (m s : string) :
  formatQuestionResponse question = Ok d ->
  member question "id" = Ok (VStr s) ->
  s <> "" ->
  exists saved,
    Frontend.normalizeSaved
      (JSON_stringify (VObj [("message", VStr m); ("data", d)])) = Ok saved /\
    Frontend.normalizeSaved (JSON_stringify d) = Ok saved /\
    member saved "id" = Ok (VStr s) /\
    member saved "title" = Ok (JSON_stringify (field question "title")) /\
    member saved "difficulty" = Ok (JSON_stringify (field question "difficulty")) /\
    member saved "topics" = Ok (JSON_stringify (field question "topics")).
Proof.
  intros Hformat Hid Hs.
  rewrite (format_explicit _ _ Hformat).
  set (props := [("id", field question "id"); _; _; _; _; _; _; _; _; _; _; _]).
  assert (Hnd : NoDup (map fst props)).
  { simpl. repeat constructor; simpl; intuition discriminate. }
  assert (Hget : forall name,
             field (JSON_stringify (VObj props)) name =
             JSON_stringify (lookup name props)).
  { intros name. unfold field. rewrite (stringify_member _ _ Hnd). reflexivity. }
  assert (Hdata : nullish (field (JSON_stringify (VObj props)) "data") = true)
    by (rewrite Hget; reflexivity).
  assert (Hnoid : field (JSON_stringify (VObj props)) "_id" = VUndefined)
    by (rewrite Hget; reflexivity).
  assert (Hidw : field (JSON_stringify (VObj props)) "id" = VStr s).
  { rewrite Hget. simpl. unfold field. rewrite Hid. reflexivity. }
  assert (Htitle : field (JSON_stringify (VObj props)) "title" =
                   JSON_stringify (field question "title"))
    by (rewrite Hget; reflexivity).
  assert (Hdiff : field (JSON_stringify (VObj props)) "difficulty" =
                  JSON_stringify (field question "difficulty"))
    by (rewrite Hget; reflexivity).
  assert (Htopics : field (JSON_stringify (VObj props)) "topics" =
                    JSON_stringify (field question "topics"))
    by (rewrite Hget; reflexivity).
  pose proof (stringify_object props) as Hobj.
  rewrite stringify_envelope.
  clearbody props. clear Hget Hnd.
  set (w := JSON_stringify (VObj props)) in *.
  rewrite (normalizeSaved_wrapped [("message", VStr m); ("data", w)] w eq_refl Hobj).
  rewrite (normalizeSaved_bare w Hobj Hdata).
  rewrite Hidw, Hnoid, Htitle, Hdiff, Htopics.
  assert (Hor : or_else (or_else (VStr s) VUndefined) (VStr "") = VStr s).
  { unfold or_else. rewrite (truthy_string _ Hs). cbv iota.
    rewrite (truthy_string _ Hs). reflexivity. }
  rewrite !Hor.
  eexists. repeat split.
Qed.

Lemma normalizeSaved_of_response_witness :
  formatQuestionResponse Sample.Q1 = Ok Sample.Q1_public /\
  member Sample.Q1 "id" = Ok (VStr "65f0c1") /\
  "65f0c1" <> "" /\
  exists saved,
    Frontend.normalizeSaved
      (JSON_stringify (VObj [("message", VStr "Found question");
                             ("data", Sample.Q1_public)])) = Ok saved /\
    Frontend.normalizeSaved (JSON_stringify Sample.Q1_public) = Ok saved /\
    member saved "id" = Ok (VStr "65f0c1") /\
    member saved "title" = Ok (JSON_stringify (field Sample.Q1 "title")) /\
    member saved "difficulty" = Ok (JSON_stringify (field Sample.Q1 "difficulty")) /\
    member saved "topics" = Ok (JSON_stringify (field Sample.Q1 "topics")).
Proof.
  assert (H1 : formatQuestionResponse Sample.Q1 = Ok Sample.Q1_public)
    by reflexivity.
  assert (H2 : member Sample.Q1 "id" = Ok (VStr "65f0c1")) by reflexivity.
  assert (H3 : "65f0c1" <> "") by discriminate.
  repeat (split; [assumption|]).
  exact (normalizeSaved_of_response _ _ "Found question" _ H1 H2 H3).
Defined.

(** ** More on the formatter and the replies *)

Lemma stringify_undefined : JSON_stringify VUndefined = VUndefined.
Proof. reflexivity. Qed.

Lemma stringify_reply_message (c : value) (st : string) (d : value) (m : string) :
  member (JSON_stringify (reply c st d m)) "message" = Ok (VStr m).
Proof. destruct c, d; reflexivity. Qed.

Lemma stringify_reply_no_correlationId (st : string) (d : value) (m : string) :
  member (JSON_stringify (reply VUndefined st d m)) "correlationId" = Ok VUndefined.
Proof. destruct d; reflexivity. Qed.

Lemma format_nullish (question : value) :
  nullish question = true -> exists x, formatQuestionResponse question = Throw x.
Proof.
  destruct question; simpl; intros H; try discriminate H;
    eexists; reflexivity.
Qed.

(** X10. [formatQuestionResponse] succeeds on every record that is not [null]
    or [undefined] and formatting is idempotent: a formatted record is
    returned unchanged when formatted again. *)
Theorem format_idempotent (question : value) :
  nullish question = false ->
  exists d,
    formatQuestionResponse question = Ok d /\
    formatQuestionResponse d = Ok d.
Proof.
  intros H.
  destruct (formatQuestionResponse question) as [d|x] eqn:Hf.
  - exists d. split; [reflexivity|].
    rewrite (format_explicit _ _ Hf). reflexivity.
  - destruct question; discriminate.
Qed.

Lemma format_idempotent_witness :
  nullish Sample.Q1 = false /\
  exists d,
    formatQuestionResponse Sample.Q1 = Ok d /\
    formatQuestionResponse d = Ok d.
Proof.
  assert (H : nullish Sample.Q1 = false) by reflexivity.
  split; [exact H|].
  exact (format_idempotent Sample.Q1 H).
Defined.

Opaque member element truthy strict_eq_zero stringifiable JSON_stringify
  formatQuestionResponse includes.

Ltac unfold_http :=
  unfold run, getRandomQuestion, try_catch, bind, lift, ret, json, console,
    emit, findRandomQuestion.

Ltac split_http :=
  repeat (simpl;
          first [ split_atom
                | match goal with
                  | |- context [includes ?l ?v] => destruct (includes l v) eqn:?
                  end ]);
  simpl.

(** ** The HTTP path to a random question *)

(** X11. [getRandomQuestion] always answers: no exception leaves it, the
    status is 200, 404 or 500, it queries the store at most once and never
    publishes on the bus. *)
Theorem getRandomQuestion_always_responds (query : value) (e : env) :
  exists response,
    fst (run (getRandomQuestion query) e) = Ok response /\
    (status response = 200 \/ status response = 404 \/ status response = 500)%nat /\
    (List.length (queries (snd (run (getRandomQuestion query) e))) <= 1)%nat /\
    attempts (snd (run (getRandomQuestion query) e)) = [].
Proof.
  unfold_http. split_http; eexists; (split; [reflexivity|]); simpl; auto.
Qed.

(** X12. [getRandomQuestion] validates before it queries: when the difficulty
    is not one of [DIFFICULTIES] or the topic not one of [TOPICS] (a missing
    value included), the store is not queried and the response is an error
    without data. *)
Theorem getRandomQuestion_validates_first (query : value) (e : env) :
  includes DIFFICULTIES (field query "difficulty") = false \/
  includes TOPICS (field query "topics") = false ->
  queries (snd (run (getRandomQuestion query) e)) = [] /\
  exists response,
    fst (run (getRandomQuestion query) e) = Ok response /\
    (status response = 404 \/ status response = 500)%nat /\
    data response = VUndefined.
Proof.
  unfold field. intros H. unfold_http. revert H.
  split_http; intros [H|H]; try discriminate H;
    (split; [reflexivity|]); eexists; (split; [reflexivity|]); simpl;
    rewrite ?stringify_undefined; auto.
Qed.

Lemma getRandomQuestion_validates_first_witness :
  (includes DIFFICULTIES (field Sample.extreme_query "difficulty") = false \/
   includes TOPICS (field Sample.extreme_query "topics") = false) /\
  queries (snd (run (getRandomQuestion Sample.extreme_query) Sample.found)) = [] /\
  exists response,
    fst (run (getRandomQuestion Sample.extreme_query) Sample.found) = Ok response /\
    (status response = 404 \/ status response = 500)%nat /\
    data response = VUndefined.
Proof.
  assert (H : includes DIFFICULTIES (field Sample.extreme_query "difficulty") = false \/
              includes TOPICS (field Sample.extreme_query "topics") = false)
    by (left; reflexivity).
  split; [exact H|].
  exact (getRandomQuestion_validates_first Sample.extreme_query Sample.found H).
Defined.

(** X13. A 200 response of [getRandomQuestion] is given only for a recognised
    difficulty and topic, after exactly one store query with them that
    returned a non-empty result, and its data is the serialisation of the
    formatted first record. *)
Theorem getRandomQuestion_success_from_store (query : value) (e : env)
    (response : HttpResponse) :
  fst (run (getRandomQuestion query) e) = Ok response ->
  status response = 200%nat ->
  exists difficulty topics randomQuestion question formatted,
    member query "difficulty" = Ok difficulty /\
    member query "topics" = Ok topics /\
    includes DIFFICULTIES difficulty = true /\
    includes TOPICS topics = true /\
    queries (snd (run (getRandomQuestion query) e)) = [(difficulty, topics)] /\
    _findRandomQuestion e difficulty topics = Ok randomQuestion /\
    empty_result randomQuestion = false /\
    element randomQuestion 0 = Ok question /\
    formatQuestionResponse question = Ok formatted /\
    data response = JSON_stringify formatted.
Proof.
  unfold_http.
  split_http; intros H Hs; injection H as <-; try discriminate Hs.
  do 5 eexists. repeat (split; [eassumption || reflexivity|]).
  split.
  - unfold empty_result. rew_run. reflexivity.
  - repeat (split; [eassumption || reflexivity|]). reflexivity.
Qed.

Lemma getRandomQuestion_success_from_store_witness :
  fst (run (getRandomQuestion Sample.query) Sample.found) =
    Ok {| status := 200;
          message := [Lit "Found a random question for the difficulty: ";
                      Val (VStr "Medium"); Lit " and topic: "; Val (VStr "Graphs")];
          data := JSON_stringify Sample.Q1_public |} /\
  200%nat = 200%nat /\
  exists difficulty topics randomQuestion question formatted,
    member Sample.query "difficulty" = Ok difficulty /\
    member Sample.query "topics" = Ok topics /\
    includes DIFFICULTIES difficulty = true /\
    includes TOPICS topics = true /\
    queries (snd (run (getRandomQuestion Sample.query) Sample.found)) =
      [(difficulty, topics)] /\
    _findRandomQuestion Sample.found difficulty topics = Ok randomQuestion /\
    empty_result randomQuestion = false /\
    element randomQuestion 0 = Ok question /\
    formatQuestionResponse question = Ok formatted /\
    JSON_stringify Sample.Q1_public = JSON_stringify formatted.
Proof.
  assert (H : fst (run (getRandomQuestion Sample.query) Sample.found) =
              Ok {| status := 200;
                    message := [Lit "Found a random question for the difficulty: ";
                                Val (VStr "Medium"); Lit " and topic: ";
                                Val (VStr "Graphs")];
                    data := JSON_stringify Sample.Q1_public |})
    by reflexivity.
  split; [exact H|]. split; [reflexivity|].
  exact (getRandomQuestion_success_from_store _ _ _ H eq_refl).
Defined.

(** X14. When the store query of [getRandomQuestion] throws, the exception is
    logged and the client gets status 500 with the fixed message and no data:
    nothing of the exception reaches the response. *)
Theorem getRandomQuestion_store_fault (query : value) (e : env)
    (difficulty topics : value) (x : exn) :
  member query "difficulty" = Ok difficulty ->
  member query "topics" = Ok topics ->
  includes DIFFICULTIES difficulty = true ->
  includes TOPICS topics = true ->
  _findRandomQuestion e difficulty topics = Throw x ->
  run (getRandomQuestion query) e =
    (Ok {| status := 500;
           message := [Lit "Unknown error when getting a random question!"];
           data := VUndefined |},
     [Query difficulty topics; Console LError [Exn x]]).
Proof.
  intros Hd Ht Hi1 Hi2 Hstore.
  pose proof (includes_truthy _ _ Hi2 TOPICS_nonempty) as Htt.
  assert (Htd : truthy difficulty = true).
  { apply (includes_truthy DIFFICULTIES); [exact Hi1|].
    simpl. intuition discriminate. }
  unfold_http. rew_run. rewrite stringify_undefined. reflexivity.
Qed.

Lemma getRandomQuestion_store_fault_witness :
  member Sample.query "difficulty" = Ok (VStr "Medium") /\
  member Sample.query "topics" = Ok (VStr "Graphs") /\
  includes DIFFICULTIES (VStr "Medium") = true /\
  includes TOPICS (VStr "Graphs") = true /\
  _findRandomQuestion Sample.fault (VStr "Medium") (VStr "Graphs") =
    Throw (Failure (VStr "ECONNREFUSED")) /\
  run (getRandomQuestion Sample.query) Sample.fault =
    (Ok {| status := 500;
           message := [Lit "Unknown error when getting a random question!"];
           data := VUndefined |},
     [Query (VStr "Medium") (VStr "Graphs");
      Console LError [Exn (Failure (VStr "ECONNREFUSED"))]]).
Proof.
  assert (H1 : member Sample.query "difficulty" = Ok (VStr "Medium"))
    by reflexivity.
  assert (H2 : member Sample.query "topics" = Ok (VStr "Graphs")) by reflexivity.
  assert (H3 : includes DIFFICULTIES (VStr "Medium") = true) by reflexivity.
  assert (H4 : includes TOPICS (VStr "Graphs") = true) by reflexivity.
  assert (H5 : _findRandomQuestion Sample.fault (VStr "Medium") (VStr "Graphs") =
               Throw (Failure (VStr "ECONNREFUSED"))) by reflexivity.
  repeat (split; [assumption|]).
  exact (getRandomQuestion_store_fault _ _ _ _ _ H1 H2 H3 H4 H5).
Defined.

(** ** More on the bus handler *)

(** X15. Only a [TypeError] raised while the message is taken apart or the
    first log line is rendered can leave [handleMatchingRequest], and then
    nothing at all has been logged, queried or published; faults of the store
    and of the bus are always absorbed. *)
Theorem store_and_bus_faults_absorbed (message : value) (e : env) (x : exn) :
  outcome message e = Throw x ->
  (exists what, x = TypeError what) /\ trace message e = [].
Proof.
  unfold_handler.
  split_run; intros H; try discriminate H;
    injection H as <-; (split; [|reflexivity]);
    eauto using member_throws, element_throws.
Qed.

Lemma store_and_bus_faults_absorbed_witness :
  outcome Sample.no_meta Sample.fault =
    Throw (TypeError "Cannot read properties of undefined: difficulty") /\
  (exists what,
      TypeError "Cannot read properties of undefined: difficulty" = TypeError what) /\
  trace Sample.no_meta Sample.fault = [].
Proof.
  assert (H : outcome Sample.no_meta Sample.fault =
              Throw (TypeError "Cannot read properties of undefined: difficulty"))
    by reflexivity.
  split; [exact H|].
  exact (store_and_bus_faults_absorbed _ _ _ H).
Defined.

(** X16. Whatever the message, every publish attempt of the handler goes to the
    topic [question-replies] and carries exactly one payload, whose [status]
    is "success" or "error" and whose [message] is a string. *)
Theorem publish_attempts_well_formed (message : value) (e : env)
    (record : ProducerRecord) (ok : bool) :
  In (record, ok) (attempts (trace message e)) ->
  topic record = "question-replies" /\
  exists payload text,
    messages record = [payload] /\
    (member payload "status" = Ok (VStr "success") \/
     member payload "status" = Ok (VStr "error")) /\
    member payload "message" = Ok (VStr text).
Proof.
  unfold_handler.
  split_run; intros H; simpl in H;
    repeat (destruct H as [H|H]; [injection H as <- <-|]); try contradiction;
    (split; [reflexivity|]); eexists; eexists; (split; [reflexivity|]);
    rewrite stringify_reply_status, stringify_reply_message;
    (split; [|reflexivity]); auto.
Qed.

Lemma publish_attempts_well_formed_witness :
  In (reply_record (reply (VStr "abc-1") "error" VNull internal_error_message), true)
     (attempts (trace (encode Sample.request) Sample.found_flaky)) /\
  topic (reply_record (reply (VStr "abc-1") "error" VNull internal_error_message)) =
    "question-replies" /\
  exists payload text,
    messages (reply_record (reply (VStr "abc-1") "error" VNull internal_error_message)) =
      [payload] /\
    (member payload "status" = Ok (VStr "success") \/
     member payload "status" = Ok (VStr "error")) /\
    member payload "message" = Ok (VStr text).
Proof.
  assert (H : In (reply_record
                    (reply (VStr "abc-1") "error" VNull internal_error_message), true)
                 (attempts (trace (encode Sample.request) Sample.found_flaky)))
    by (right; left; reflexivity).
  split; [exact H|].
  exact (publish_attempts_well_formed _ _ _ _ H).
Defined.

(** X17. The handler queries the store at most once, and it never attempts a
    publish without having queried the store first. *)
Theorem publish_only_after_query (message : value) (e : env) :
  (List.length (queries (trace message e)) <= 1)%nat /\
  (attempts (trace message e) <> [] ->
   exists difficulty topic before after,
     trace message e = before ++ Query difficulty topic :: after /\
     attempts before = [] /\
     queries after = []).
Proof.
  unfold_handler.
  split_run; (split; [auto|]); intros H; try (contradiction H; reflexivity);
    match goal with
    | |- exists d t b a, ?l :: Query ?x ?y :: ?rest = _ /\ _ =>
        exists x, y, [l], rest; repeat split
    end.
Qed.

Lemma publish_only_after_query_witness :
  (List.length (queries (trace (encode Sample.request) Sample.found)) <= 1)%nat /\
  attempts (trace (encode Sample.request) Sample.found) <> [] /\
  exists difficulty topic before after,
    trace (encode Sample.request) Sample.found =
      before ++ Query difficulty topic :: after /\
    attempts before = [] /\
    queries after = [].
Proof.
  destruct (publish_only_after_query (encode Sample.request) Sample.found)
    as [H1 H2].
  assert (H : attempts (trace (encode Sample.request) Sample.found) <> [])
    by discriminate.
  split; [exact H1|]. split; [exact H|]. exact (H2 H).
Defined.

(** X18. The handler attempts to publish a success reply only after the store
    returned a non-empty result whose first record could be formatted; the
    reply then carries the fixed success message and the serialised formatted
    record as data. *)
Theorem success_reply_from_store (message : value) (e : env) (payload : value)
    (ok : bool) :
  In ({| topic := "question-replies"; messages := [payload] |}, ok)
     (attempts (trace message e)) ->
  member payload "status" = Ok (VStr "success") ->
  exists difficulty topic randomQuestion question formatted,
    queries (trace message e) = [(difficulty, topic)] /\
    _findRandomQuestion e difficulty topic = Ok randomQuestion /\
    empty_result randomQuestion = false /\
    element randomQuestion 0 = Ok question /\
    formatQuestionResponse question = Ok formatted /\
    member payload "data" = Ok (JSON_stringify formatted) /\
    member payload "message" = Ok (VStr "Question found successfully.").
Proof.
  intros H Hs. remember (member payload) as get eqn:Hget. revert H.
  unfold_handler.
  split_run; intros H; simpl in H;
    repeat (destruct H as [H|H];
            [injection H as Hp _; subst payload get;
             try (rewrite stringify_reply_status in Hs; discriminate Hs)|]);
    try contradiction;
    do 5 eexists;
    (split; [reflexivity|]); (split; [eassumption|]);
    (split; [unfold empty_result; rew_run; reflexivity|]);
    (split; [eassumption|]); (split; [eassumption|]);
    (split; [eapply stringify_reply_data; eassumption
            |apply stringify_reply_message]).
Qed.

Lemma success_reply_from_store_witness :
  In ({| topic := "question-replies";
         messages := [JSON_stringify
                        (reply (VStr "abc-1") "success" Sample.Q1_public
                           found_message)] |}, true)
     (attempts (trace (encode Sample.request) Sample.found)) /\
  member (JSON_stringify
            (reply (VStr "abc-1") "success" Sample.Q1_public found_message))
    "status" = Ok (VStr "success") /\
  exists difficulty topic randomQuestion question formatted,
    queries (trace (encode Sample.request) Sample.found) = [(difficulty, topic)] /\
    _findRandomQuestion Sample.found difficulty topic = Ok randomQuestion /\
    empty_result randomQuestion = false /\
    element randomQuestion 0 = Ok question /\
    formatQuestionResponse question = Ok formatted /\
    member (JSON_stringify
              (reply (VStr "abc-1") "success" Sample.Q1_public found_message))
      "data" = Ok (JSON_stringify formatted) /\
    member (JSON_stringify
              (reply (VStr "abc-1") "success" Sample.Q1_public found_message))
      "message" = Ok (VStr "Question found successfully.").
Proof.
  assert (H1 : In ({| topic := "question-replies";
                      messages := [JSON_stringify
                                     (reply (VStr "abc-1") "success"
                                        Sample.Q1_public found_message)] |}, true)
                  (attempts (trace (encode Sample.request) Sample.found)))
    by (left; reflexivity).
  assert (H2 : member (JSON_stringify
                         (reply (VStr "abc-1") "success" Sample.Q1_public
                            found_message)) "status" = Ok (VStr "success"))
    by reflexivity.
  split; [exact H1|]. split; [exact H2|].
  exact (success_reply_from_store _ _ _ _ H1 H2).
Defined.

(** X19. When the store returns a non-empty result whose first entry is [null]
    or [undefined], formatting throws inside the [try] block: the handler
    returns normally and its only publish attempt is the internal-error
    reply. *)
Theorem null_record_internal_error (message : value) (r : MatchRequest) (e : env)
    (randomQuestion question : value) :
  decodes message r ->
  req_difficulty r <> "" ->
  _findRandomQuestion e (VStr (req_difficulty r)) (first_topic r) =
    Ok randomQuestion ->
  empty_result randomQuestion = false ->
  element randomQuestion 0 = Ok question ->
  nullish question = true ->
  outcome message e = Ok tt /\
  exists ok,
    attempts (trace message e) =
      [({| topic := "question-replies";
           messages :=
             [VObj [("correlationId", VStr (req_correlationId r));
                    ("status", VStr "error");
                    ("data", VNull);
                    ("message",
                     VStr "An internal error occurred in the Question Service.")]]
        |}, ok)].
Proof.
  intros Hdec Hne Hstore Hempty Hrecord Hnull.
  destruct (decodes_accepted _ _ Hdec Hne) as [meta A].
  destruct (empty_result_false _ Hempty) as (Htruthy & len & Hlen & Hzero).
  destruct (format_nullish _ Hnull) as [x Hformat].
  with_request A. rew_run.
  split_run; (split; [reflexivity|]); eexists;
    unfold reply_record; rewrite stringify_error_reply; reflexivity.
Qed.

Lemma null_record_internal_error_witness :
  let e := {| _findRandomQuestion := fun _ _ => Ok (VArr [VNull]);
              producer_send := Sample.reliable |} in
  decodes (encode Sample.request) Sample.request /\
  req_difficulty Sample.request <> "" /\
  _findRandomQuestion e (VStr "Medium") (first_topic Sample.request) =
    Ok (VArr [VNull]) /\
  empty_result (VArr [VNull]) = false /\
  element (VArr [VNull]) 0 = Ok VNull /\
  nullish VNull = true /\
  outcome (encode Sample.request) e = Ok tt /\
  exists ok,
    attempts (trace (encode Sample.request) e) =
      [({| topic := "question-replies";
           messages :=
             [VObj [("correlationId", VStr "abc-1");
                    ("status", VStr "error");
                    ("data", VNull);
                    ("message",
                     VStr "An internal error occurred in the Question Service.")]]
        |}, ok)].
Proof.
  intros e.
  assert (H1 : decodes (encode Sample.request) Sample.request)
    by apply decodes_encode.
  assert (H2 : req_difficulty Sample.request <> "") by discriminate.
  assert (H3 : _findRandomQuestion e (VStr (req_difficulty Sample.request))
                 (first_topic Sample.request) = Ok (VArr [VNull])) by reflexivity.
  assert (H4 : empty_result (VArr [VNull]) = false) by reflexivity.
  assert (H5 : element (VArr [VNull]) 0 = Ok VNull) by reflexivity.
  assert (H6 : nullish VNull = true) by reflexivity.
  repeat (split; [assumption|]).
  exact (null_record_internal_error _ _ e _ _ H1 H2 H3 H4 H5 H6).
Defined.

(** X20. Only the first topic of a request that passes the guard matters: two
    decoded requests with the same correlation id, the same non-empty
    difficulty and the same first topic make the handler behave identically
    (same outcome, same log, query and publish attempts), whatever their
    other topics and other fields are. *)
Theorem only_first_topic_matters (m1 m2 : value) (r1 r2 : MatchRequest) (e : env) :
  decodes m1 r1 ->
  decodes m2 r2 ->
  req_difficulty r1 <> "" ->
  req_correlationId r1 = req_correlationId r2 ->
  req_difficulty r1 = req_difficulty r2 ->
  first_topic r1 = first_topic r2 ->
  run (handleMatchingRequest m1) e = run (handleMatchingRequest m2) e.
Proof.
  intros Hd1 Hd2 Hne Hc Hd Ht.
  assert (Hne2 : req_difficulty r2 <> "") by (rewrite <- Hd; exact Hne).
  destruct (decodes_accepted _ _ Hd1 Hne) as [meta1 A1].
  destruct (decodes_accepted _ _ Hd2 Hne2) as [meta2 A2].
  destruct A1 as [? ? ? ? ? ? ? ? ? ?], A2 as [? ? ? ? ? ? ? ? ? ?].
  unfold_handler. rew_run. rewrite Hc, Hd, Ht. reflexivity.
Qed.

Lemma only_first_topic_matters_witness :
  let r2 := {| req_correlationId := "abc-1"; req_difficulty := "Medium";
               req_topics := ["Graphs"; "Heaps"; "Arrays"] |} in
  decodes (encode Sample.request) Sample.request /\
  decodes (encode r2) r2 /\
  req_difficulty Sample.request <> "" /\
  req_correlationId Sample.request = req_correlationId r2 /\
  req_difficulty Sample.request = req_difficulty r2 /\
  first_topic Sample.request = first_topic r2 /\
  run (handleMatchingRequest (encode Sample.request)) Sample.found =
  run (handleMatchingRequest (encode r2)) Sample.found.
Proof.
  intros r2.
  assert (H1 : decodes (encode Sample.request) Sample.request)
    by apply decodes_encode.
  assert (H2 : decodes (encode r2) r2) by apply decodes_encode.
  assert (H3 : req_difficulty Sample.request <> "") by discriminate.
  assert (H4 : req_correlationId Sample.request = req_correlationId r2)
    by reflexivity.
  assert (H5 : req_difficulty Sample.request = req_difficulty r2) by reflexivity.
  assert (H6 : first_topic Sample.request = first_topic r2) by reflexivity.
  repeat (split; [assumption|]).
  exact (only_first_topic_matters _ _ _ _ Sample.found H1 H2 H3 H4 H5 H6).
Defined.

(** X21. A request without [correlationId] that is otherwise well formed is
    still answered: the handler returns normally and, the bus accepting the
    publish, exactly one reply is published, and that reply has no
    [correlationId] field. *)
Theorem reply_without_correlationId (message meta : value) (difficulty : string)
    (topics : list string) (e : env) :
  member message "correlationId" = Ok VUndefined ->
  member message "meta" = Ok meta ->
  member meta "difficulty" = Ok (VStr difficulty) ->
  difficulty <> "" ->
  member meta "topics" = Ok (VArr (map VStr topics)) ->
  accepts_first e ->
  outcome message e = Ok tt /\
  exists payload,
    published (trace message e) =
      [{| topic := "question-replies"; messages := [payload] |}] /\
    member payload "correlationId" = Ok VUndefined.
Proof.
  intros Hcid Hmeta Hdiff Hne Htopics Hbus.
  pose proof (truthy_string _ Hne) as Hpresent.
  assert (Harray : truthy (VArr (map VStr topics)) = true) by reflexivity.
  assert (Hfirst : element (VArr (map VStr topics)) 0 =
                   Ok (nth 0 (map VStr topics) VUndefined)) by reflexivity.
  assert (Hlog1 : stringifiable VUndefined = true) by reflexivity.
  assert (Hlog2 : stringifiable (VStr difficulty) = true) by reflexivity.
  assert (Hlog3 : stringifiable (nth 0 (map VStr topics) VUndefined) = true)
    by (destruct topics; reflexivity).
  unfold accepts_first in Hbus.
  unfold_handler. rew_run.
  split_run; bus_accepts Hbus;
    (split; [reflexivity|]); eexists; (split; [reflexivity|]);
    apply stringify_reply_no_correlationId.
Qed.

Lemma reply_without_correlationId_witness :
  let message := VObj [("meta", VObj [("difficulty", VStr "Medium");
                                      ("topics", VArr (map VStr ["Graphs"]))])] in
  member message "correlationId" = Ok VUndefined /\
  member message "meta" =
    Ok (VObj [("difficulty", VStr "Medium");
              ("topics", VArr (map VStr ["Graphs"]))]) /\
  member (VObj [("difficulty", VStr "Medium");
                ("topics", VArr (map VStr ["Graphs"]))]) "difficulty" =
    Ok (VStr "Medium") /\
  "Medium" <> "" /\
  member (VObj [("difficulty", VStr "Medium");
                ("topics", VArr (map VStr ["Graphs"]))]) "topics" =
    Ok (VArr (map VStr ["Graphs"])) /\
  accepts_first Sample.found /\
  outcome message Sample.found = Ok tt /\
  exists payload,
    published (trace message Sample.found) =
      [{| topic := "question-replies"; messages := [payload] |}] /\
    member payload "correlationId" = Ok VUndefined.
Proof.
  intros message.
  assert (H1 : member message "correlationId" = Ok VUndefined) by reflexivity.
  assert (H2 : member message "meta" =
               Ok (VObj [("difficulty", VStr "Medium");
                         ("topics", VArr (map VStr ["Graphs"]))])) by reflexivity.
  assert (H3 : member (VObj [("difficulty", VStr "Medium");
                             ("topics", VArr (map VStr ["Graphs"]))])
                 "difficulty" = Ok (VStr "Medium")) by reflexivity.
  assert (H4 : "Medium" <> "") by discriminate.
  assert (H5 : member (VObj [("difficulty", VStr "Medium");
                             ("topics", VArr (map VStr ["Graphs"]))]) "topics" =
               Ok (VArr (map VStr ["Graphs"]))) by reflexivity.
  assert (H6 : accepts_first Sample.found) by (intros record; reflexivity).
  repeat (split; [assumption|]).
  exact (reply_without_correlationId _ _ _ _ _ H1 H2 H3 H4 H5 H6).
Defined.

Transparent member element truthy strict_eq_zero stringifiable JSON_stringify
  formatQuestionResponse includes.

(** ** The CRUD controllers *)

Lemma id_string_pure (v : value) (e : Crud.env) (t : list Crud.event) :
  Crud.id_string v e t = (fst (Crud.id_string v e []), t).
Proof. destruct v; reflexivity. Qed.

Lemma normalize_timeout_positive (n : Crud.number) :
  Crud.positive (Crud.normalize_timeout n) = true.
Proof.
  unfold Crud.normalize_timeout.
  destruct n as [|q|[|]]; simpl; try reflexivity.
  destruct (Qle_bool q 0) eqn:Hq; simpl; [reflexivity|].
  rewrite Hq. reflexivity.
Qed.

Lemma keysToDelete_spec (prevKeys newKeys : list string) (k : string) :
  In k (Crud.keysToDelete prevKeys newKeys) <-> In k prevKeys /\ ~ In k newKeys.
Proof.
  unfold Crud.keysToDelete. rewrite filter_In. split.
  - intros [Hin Hn]. split; [exact Hin|]. intros Hnew.
    assert (Hex : existsb (String.eqb k) newKeys = true).
    { apply existsb_exists. exists k. split; [exact Hnew|apply String.eqb_refl]. }
    rewrite Hex in Hn. discriminate.
  - intros [Hin Hn]. split; [exact Hin|].
    destruct (existsb (String.eqb k) newKeys) eqn:Hex; [|reflexivity].
    apply existsb_exists in Hex. destruct Hex as (x & Hx & Heq).
    apply String.eqb_eq in Heq. subst x. contradiction.
Qed.

Lemma read_body_fields (body : value) :
  nullish body = false ->
  Crud.read_body body =
  Ok {| Crud.title := field body "title";
        Crud.difficulty := field body "difficulty";
        Crud.topics := field body "topics";
        Crud.problemStatement := field body "problemStatement";
        Crud.constraints := field body "constraints";
        Crud.examples := field body "examples";
        Crud.codeSnippets := field body "codeSnippets";
        Crud.entryPoint := field body "entryPoint";
        Crud.timeout := field body "timeout";
        Crud.signature := field body "signature";
        Crud.testCases := field body "testCases" |}.
Proof.
  destruct body; simpl; intros H; try discriminate H; reflexivity.
Qed.

Lemma missingFields_required (b : Crud.Body) (name : string) (v : value) :
  In (name, v) (Crud.requiredFields b) ->
  Crud.is_missing v = true ->
  In name (Crud.missingFields b).
Proof.
  intros Hin Hm. unfold Crud.missingFields.
  apply (in_map fst _ (name, v)). apply filter_In. auto.
Qed.

Lemma member_array_length (elems : list value) :
  member (VArr elems) "length" = Ok (of_nat (List.length elems)).
Proof. reflexivity. Qed.

Lemma stringifiable_of_nat (n : nat) : stringifiable (of_nat n) = true.
Proof. reflexivity. Qed.

Lemma format_all_array (elems : list value) :
  Crud.format_all (VArr elems) =
  match map_res formatQuestionResponse elems with
  | Ok formatted => Ok (VArr formatted)
  | Throw x => Throw x
  end.
Proof. reflexivity. Qed.

Lemma map_format (elems : list value) :
  match map_res formatQuestionResponse elems with
  | Ok formatted =>
      existsb nullish elems = false /\
      List.length formatted = List.length elems
  | Throw _ => existsb nullish elems = true
  end.
Proof.
  induction elems as [|q rest IH]; simpl; [auto|].
  destruct (nullish q) eqn:Hn.
  - destruct (format_nullish q Hn) as [x Hx]. rewrite Hx. reflexivity.
  - destruct (format_idempotent q Hn) as (d & Hd & _). rewrite Hd. simpl.
    destruct (map_res formatQuestionResponse rest); simpl; [|exact IH].
    destruct IH as [IH1 IH2]. split; [exact IH1|]. rewrite IH2. reflexivity.
Qed.

Opaque member element truthy strict_eq_zero stringifiable JSON_stringify
  formatQuestionResponse includes.
Opaque Crud.read_body Crud.missingFields Crud.invalidExamples
  TestCases.validateFunctionTestCases TestCases.sanitizeTestCasesForSave
  Crud.normalize_timeout Crud.keysToDelete Crud.differs Crud.id_string
  Crud.format_all String.concat.

Ltac crud_unfold :=
  unfold Crud.run, Crud.createQuestion, Crud.updateQuestion, Crud.getQuestion,
    Crud.getAllQuestions, Crud.deleteQuestion, Crud.try_catch, Crud.bind,
    Crud.lift, Crud.ask, Crud.call, Crud.ret, Crud.json, Crud.console_error,
    Crud.findQuestionByTitle, Crud.findQuestionById, Crud.findAllQuestions.

Ltac crud_atom :=
  match goal with
  | |- context [Crud.read_body ?b] => destruct (Crud.read_body b) eqn:?
  | |- context [member ?v ?n] => destruct (member v n) eqn:?
  | |- context [Crud.isValidObjectId ?e ?i] =>
      destruct (Crud.isValidObjectId e i) eqn:?
  | |- context [Crud._findQuestionById ?e ?i] =>
      destruct (Crud._findQuestionById e i) eqn:?
  | |- context [Crud._findAllQuestions ?e] =>
      destruct (Crud._findAllQuestions e) eqn:?
  | |- context [Crud.missingFields ?b] => destruct (Crud.missingFields b) eqn:?
  | |- context [Crud.invalidExamples ?x] => destruct (Crud.invalidExamples x) eqn:?
  | |- context [TestCases.validateFunctionTestCases ?x] =>
      destruct (TestCases.validateFunctionTestCases x) eqn:?
  | |- context [List.length ?l] => destruct l eqn:?
  | |- context [Crud._findQuestionByTitle ?e ?t] =>
      destruct (Crud._findQuestionByTitle e t) eqn:?
  | |- context [truthy ?v] => destruct (truthy v) eqn:?
  | |- context [Crud.id_string ?v ?e ?t] =>
      rewrite (id_string_pure v e t);
      destruct (fst (Crud.id_string v e [])) eqn:?
  | |- context [Crud.differs ?s ?i] => destruct (Crud.differs s i) eqn:?
  | |- context [Crud.sanitizeExamplesForSave ?e ?x] =>
      destruct (Crud.sanitizeExamplesForSave e x) eqn:?
  | |- context [Crud.collectImageKeys ?e ?x] =>
      destruct (Crud.collectImageKeys e x) eqn:?
  | |- context [TestCases.sanitizeTestCasesForSave ?x] =>
      destruct (TestCases.sanitizeTestCasesForSave x) eqn:?
  | |- context [Crud.Number ?e ?x] => destruct (Crud.Number e x) eqn:?
  | |- context [Crud._createQuestion ?e ?f] =>
      destruct (Crud._createQuestion e f) eqn:?
  | |- context [Crud._updateQuestionById ?e ?i ?f] =>
      destruct (Crud._updateQuestionById e i f) eqn:?
  | |- context [Crud._deleteQuestionById ?e ?i] =>
      destruct (Crud._deleteQuestionById e i) eqn:?
  | |- context [Crud.destroyCloudinaryKeys ?e ?k] =>
      destruct (Crud.destroyCloudinaryKeys e k) eqn:?
  | |- context [stringifiable ?v] => destruct (stringifiable v) eqn:?
  | |- context [formatQuestionResponse ?q] =>
      destruct (formatQuestionResponse q) eqn:?
  | |- context [Crud.format_all ?q] => destruct (Crud.format_all q) eqn:?
  end.

Ltac crud_split := repeat (simpl; crud_atom); simpl.

(** Keeps the conclusion out of the case analysis of a run. *)
Ltac hide_goal P := match goal with |- ?G => set (P := G) end.
Ltac show_goal P := subst P; simpl.

(** X22. No exception leaves a CRUD controller: [createQuestion],
    [updateQuestion], [getQuestion], [getAllQuestions] and [deleteQuestion]
    always answer, each with one of its own status codes. *)
Theorem crud_always_responds (params body : value) (e : Crud.env) :
  (exists r, fst (Crud.run (Crud.createQuestion body) e) = Ok r /\
             In (Crud.status r) [201; 400; 409; 500]%nat) /\
  (exists r, fst (Crud.run (Crud.updateQuestion params body) e) = Ok r /\
             In (Crud.status r) [200; 400; 404; 409; 500]%nat) /\
  (exists r, fst (Crud.run (Crud.getQuestion params) e) = Ok r /\
             In (Crud.status r) [200; 404; 500]%nat) /\
  (exists r, fst (Crud.run Crud.getAllQuestions e) = Ok r /\
             In (Crud.status r) [200; 500]%nat) /\
  (exists r, fst (Crud.run (Crud.deleteQuestion params) e) = Ok r /\
             In (Crud.status r) [200; 404; 500]%nat).
Proof.
  repeat split.
  - crud_unfold. crud_split; eexists; (split; [reflexivity|]); simpl; tauto.
  - crud_unfold. crud_split; eexists; (split; [reflexivity|]); simpl; tauto.
  - crud_unfold. crud_split; eexists; (split; [reflexivity|]); simpl; tauto.
  - crud_unfold. crud_split; eexists; (split; [reflexivity|]); simpl; tauto.
  - crud_unfold. crud_split; eexists; (split; [reflexivity|]); simpl; tauto.
Qed.

(** X23. A created question passed every check: [_createQuestion] is called at
    most once, and only with a body that has all required fields, valid
    examples and test cases and a title no stored question has; the examples
    and test cases it receives are the sanitised ones and its timeout is a
    positive number. *)
Theorem create_writes_only_valid (body : value) (e : Crud.env)
    (fields : Crud.Fields) :
  In fields (Crud.creates (snd (Crud.run (Crud.createQuestion body) e))) ->
  Crud.creates (snd (Crud.run (Crud.createQuestion body) e)) = [fields] /\
  exists b existing,
    Crud.read_body body = Ok b /\
    Crud.missingFields b = [] /\
    Crud.invalidExamples (Crud.examples b) = Ok [] /\
    TestCases.validateFunctionTestCases (Crud.testCases b) = [] /\
    Crud._findQuestionByTitle e (Crud.title b) = Ok existing /\
    truthy existing = false /\
    Crud.f_title fields = Crud.title b /\
    Crud.sanitizeExamplesForSave e (Crud.examples b) = Ok (Crud.f_examples fields) /\
    TestCases.sanitizeTestCasesForSave (Crud.testCases b) =
      Ok (Crud.f_testCases fields) /\
    Crud.positive (Crud.f_timeout fields) = true.
Proof.
  crud_unfold.
  crud_split; intros H; simpl in H;
    repeat (destruct H as [H|H]; [subst fields|]); try contradiction;
    (split; [reflexivity|]); do 2 eexists;
    repeat (split; [eassumption || reflexivity|]);
    apply normalize_timeout_positive.
Qed.

(** X24. A 201 response of [createQuestion] means that [_createQuestion] was
    called exactly once and returned a record, and the data of the response
    is the serialised formatted record. *)
Theorem create_201 (body : value) (e : Crud.env) (r : Crud.Response) :
  fst (Crud.run (Crud.createQuestion body) e) = Ok r ->
  Crud.status r = 201%nat ->
  exists fields created formatted,
    Crud.creates (snd (Crud.run (Crud.createQuestion body) e)) = [fields] /\
    Crud._createQuestion e fields = Ok created /\
    formatQuestionResponse created = Ok formatted /\
    Crud.data r = JSON_stringify formatted.
Proof.
  crud_unfold.
  crud_split; intros H Hs; injection H as <-; try discriminate Hs.
  do 3 eexists. repeat (split; [eassumption || reflexivity|]). reflexivity.
Qed.

(** X26. [updateQuestion] destroys images only after [_updateQuestionById]
    returned the updated record, in one call, and the keys it destroys are
    exactly the keys of the previous examples that the saved examples no
    longer use. *)
Theorem update_destroys_only_unreferenced (params body : value) (e : Crud.env)
    (keys : list string) :
  In keys (Crud.destroys (snd (Crud.run (Crud.updateQuestion params body) e))) ->
  Crud.destroys (snd (Crud.run (Crud.updateQuestion params body) e)) = [keys] /\
  exists id fields updated current previous prevKeys newKeys,
    Crud.updates (snd (Crud.run (Crud.updateQuestion params body) e)) =
      [(id, fields)] /\
    Crud._updateQuestionById e id fields = Ok updated /\
    truthy updated = true /\
    Crud._findQuestionById e id = Ok current /\
    member current "examples" = Ok previous /\
    Crud.collectImageKeys e previous = Ok prevKeys /\
    Crud.collectImageKeys e (Crud.f_examples fields) = Ok newKeys /\
    forall k, In k keys <-> In k prevKeys /\ ~ In k newKeys.
Proof.
  crud_unfold.
  crud_split; intros H; simpl in H;
    repeat (destruct H as [H|H]; [subst keys|]); try contradiction;
    (split; [reflexivity|]); do 7 eexists;
    repeat (split; [eassumption || reflexivity|]);
    intros k; apply keysToDelete_spec.
Qed.

(** X27. [updateQuestion] calls [_updateQuestionById] at most once, and only
    for a valid id of a stored question, with a body that has all required
    fields, valid examples and test cases, and a title that no other stored
    question has; the timeout it passes is a positive number. *)
Theorem update_writes_only_valid (params body : value) (e : Crud.env)
    (id : value) (fields : Crud.Fields) :
  In (id, fields)
     (Crud.updates (snd (Crud.run (Crud.updateQuestion params body) e))) ->
  Crud.updates (snd (Crud.run (Crud.updateQuestion params body) e)) =
    [(id, fields)] /\
  member params "id" = Ok id /\
  Crud.isValidObjectId e id = true /\
  exists b current existing,
    Crud.read_body body = Ok b /\
    Crud._findQuestionById e id = Ok current /\
    truthy current = true /\
    Crud.missingFields b = [] /\
    Crud.invalidExamples (Crud.examples b) = Ok [] /\
    TestCases.validateFunctionTestCases (Crud.testCases b) = [] /\
    Crud._findQuestionByTitle e (Crud.title b) = Ok existing /\
    (truthy existing = false \/
     exists _id s,
       member existing "_id" = Ok _id /\
       fst (Crud.id_string _id e []) = Ok s /\
       Crud.differs s id = false) /\
    Crud.f_title fields = Crud.title b /\
    Crud.positive (Crud.f_timeout fields) = true.
Proof.
  remember (snd (Crud.run (Crud.updateQuestion params body) e)) as t eqn:Ht.
  intros H. hide_goal P. revert Ht H. crud_unfold.
  crud_split; intros -> H; simpl in H;
    repeat (destruct H as [H|H]; [injection H as <- <-|]); try contradiction;
    show_goal P;
    (split; [reflexivity|]); (split; [reflexivity || assumption|]);
    (split; [assumption|]);
    do 3 eexists;
    repeat (split; [eassumption || reflexivity|]);
    (split; [eauto 6|]); (split; [reflexivity|]);
    apply normalize_timeout_positive.
Qed.

(** X28. [deleteQuestion] deletes at most one record, the one whose valid id
    was asked for and which was found; it destroys images only after the
    deletion returned, and the keys are those of the examples of that
    record. *)
Theorem delete_guards (params : value) (e : Crud.env) :
  (forall id,
      In id (Crud.deletes (snd (Crud.run (Crud.deleteQuestion params) e))) ->
      Crud.deletes (snd (Crud.run (Crud.deleteQuestion params) e)) = [id] /\
      member params "id" = Ok id /\
      Crud.isValidObjectId e id = true /\
      exists question,
        Crud._findQuestionById e id = Ok question /\ truthy question = true) /\
  (forall keys,
      In keys (Crud.destroys (snd (Crud.run (Crud.deleteQuestion params) e))) ->
      exists id deleted question previous,
        Crud.deletes (snd (Crud.run (Crud.deleteQuestion params) e)) = [id] /\
        Crud._deleteQuestionById e id = Ok deleted /\
        Crud._findQuestionById e id = Ok question /\
        member question "examples" = Ok previous /\
        Crud.collectImageKeys e previous = Ok keys).
Proof.
  remember (snd (Crud.run (Crud.deleteQuestion params) e)) as t eqn:Ht.
  split.
  - intros id H. hide_goal P. revert Ht H. crud_unfold.
    crud_split; intros -> H; simpl in H;
      repeat (destruct H as [H|H]; [subst id|]); try contradiction;
      show_goal P;
      repeat (split; [eassumption || reflexivity|]); eauto.
  - intros keys H. hide_goal P. revert Ht H. crud_unfold.
    crud_split; intros -> H; simpl in H;
      repeat (destruct H as [H|H]; [subst keys|]); try contradiction;
      show_goal P;
      do 4 eexists; repeat (split; [eassumption || reflexivity|]); eassumption.
Qed.

(** X30. A 200 response of [getQuestion] is given only for a valid id whose
    record the store returned, and carries the serialised formatted record;
    for an invalid id the store is not accessed at all. *)
Theorem getQuestion_found_only (params : value) (e : Crud.env) :
  (forall r,
      fst (Crud.run (Crud.getQuestion params) e) = Ok r ->
      Crud.status r = 200%nat ->
      exists id question formatted,
        member params "id" = Ok id /\
        Crud.isValidObjectId e id = true /\
        Crud._findQuestionById e id = Ok question /\
        truthy question = true /\
        formatQuestionResponse question = Ok formatted /\
        Crud.data r = JSON_stringify formatted) /\
  (forall id,
      member params "id" = Ok id ->
      Crud.isValidObjectId e id = false ->
      forall ev, In ev (snd (Crud.run (Crud.getQuestion params) e)) ->
                 exists x, ev = Crud.ConsoleError x).
Proof.
  split.
  - intros r. crud_unfold.
    crud_split; intros H Hs; injection H as <-; try discriminate Hs.
    do 3 eexists. repeat (split; [eassumption || reflexivity|]). reflexivity.
  - intros id Hid Hv. crud_unfold. rewrite Hid. simpl. rewrite Hv. simpl.
    crud_split; intros ev H; simpl in H;
      repeat (destruct H as [H|H]; [subst ev; eauto|]); contradiction.
Qed.

(** X25. A body in which a required field is missing ([undefined], [null] or
    a string of white space only) is rejected by [createQuestion] with status
    400 before anything is looked up or written, and makes [updateQuestion]
    neither update nor destroy anything. *)
Theorem missing_field_rejected (params body : value) (e : Crud.env)
    (name : string) :
  nullish body = false ->
  In name ["title"; "difficulty"; "topics"; "problemStatement"; "constraints";
           "examples"; "entryPoint"; "testCases"] ->
  Crud.is_missing (field body name) = true ->
  (exists r,
      Crud.run (Crud.createQuestion body) e = (Ok r, []) /\
      Crud.status r = 400%nat) /\
  Crud.updates (snd (Crud.run (Crud.updateQuestion params body) e)) = [] /\
  Crud.destroys (snd (Crud.run (Crud.updateQuestion params body) e)) = [].
Proof.
  intros Hbody Hname Hmissing.
  pose proof (read_body_fields body Hbody) as Hb.
  set (b := {| Crud.title := field body "title" |}) in Hb.
  assert (Hin : In name (Crud.missingFields b)).
  { apply (missingFields_required b name (field body name)); [|exact Hmissing].
    simpl in Hname. simpl.
    repeat (destruct Hname as [<-|Hname]; [tauto|]). contradiction. }
  destruct (Crud.missingFields b) as [|m ms] eqn:Hm; [contradiction|].
  clearbody b. clear Hin.
  split; [|split].
  - crud_unfold. rewrite Hb. simpl. rewrite Hm. simpl.
    eexists. split; reflexivity.
  - crud_unfold. rewrite Hb.
    crud_split; try reflexivity; congruence.
  - crud_unfold. rewrite Hb.
    crud_split; try reflexivity; congruence.
Qed.

(** X29. [getAllQuestions] is all or nothing: when the store returns an array
    without [null] entries the response is 200 with one formatted record per
    stored record, and a single [null] or [undefined] entry turns the whole
    listing into a 500 without data. *)
Theorem getAll_all_or_nothing (e : Crud.env) (elems : list value) :
  Crud._findAllQuestions e = Ok (VArr elems) ->
  (existsb nullish elems = false ->
   exists r formatted,
     fst (Crud.run Crud.getAllQuestions e) = Ok r /\
     Crud.status r = 200%nat /\
     map_res formatQuestionResponse elems = Ok formatted /\
     List.length formatted = List.length elems /\
     Crud.data r = JSON_stringify (VArr formatted)) /\
  (existsb nullish elems = true ->
   exists r,
     fst (Crud.run Crud.getAllQuestions e) = Ok r /\
     Crud.status r = 500%nat /\
     Crud.data r = VUndefined).
Proof.
  intros Hstore.
  pose proof (map_format elems) as Hmap.
  split; intros Hn; crud_unfold; simpl; rewrite Hstore; simpl;
    rewrite member_array_length; simpl; rewrite stringifiable_of_nat; simpl;
    rewrite format_all_array;
    destruct (map_res formatQuestionResponse elems) as [formatted|x]; simpl;
    try (destruct Hmap; congruence); try congruence.
  - destruct Hmap as [_ Hlen]. do 2 eexists. repeat split; try exact Hlen.
  - eexists. repeat split; try apply stringify_undefined.
Qed.

Transparent member element truthy strict_eq_zero stringifiable JSON_stringify
  formatQuestionResponse includes.
Transparent Crud.read_body Crud.missingFields Crud.invalidExamples
  TestCases.validateFunctionTestCases TestCases.sanitizeTestCasesForSave
  Crud.normalize_timeout Crud.keysToDelete Crud.differs Crud.id_string
  Crud.format_all String.concat.

Lemma create_writes_only_valid_witness :
  In CrudSample.fields
     (Crud.creates (snd (Crud.run (Crud.createQuestion CrudSample.body)
                           CrudSample.fresh))) /\
  Crud.creates (snd (Crud.run (Crud.createQuestion CrudSample.body)
                       CrudSample.fresh)) = [CrudSample.fields].
Proof.
  assert (H : In CrudSample.fields
                 (Crud.creates (snd (Crud.run (Crud.createQuestion CrudSample.body)
                                       CrudSample.fresh))))
    by (left; reflexivity).
  split; [exact H|].
  exact (proj1 (create_writes_only_valid _ _ _ H)).
Defined.

Lemma create_201_witness :
  fst (Crud.run (Crud.createQuestion CrudSample.body) CrudSample.fresh) =
    Ok {| Crud.status := 201;
          Crud.message := [Lit "Created new question "; Val (VStr "Two Sum");
                           Lit " successfully"];
          Crud.data := VObj [("id", VStr "65f0c9"); ("title", VStr "Two Sum");
                             ("examples",
                              VArr [VObj [("input", VStr "nums = [2,7]");
                                          ("output", VStr "[0,1]")]])];
          Crud.details := VUndefined |} /\
  exists fields created formatted,
    Crud.creates (snd (Crud.run (Crud.createQuestion CrudSample.body)
                         CrudSample.fresh)) = [fields] /\
    Crud._createQuestion CrudSample.fresh fields = Ok created /\
    formatQuestionResponse created = Ok formatted /\
    VObj [("id", VStr "65f0c9"); ("title", VStr "Two Sum");
          ("examples",
           VArr [VObj [("input", VStr "nums = [2,7]"); ("output", VStr "[0,1]")]])] =
    JSON_stringify formatted.
Proof.
  assert (H : fst (Crud.run (Crud.createQuestion CrudSample.body) CrudSample.fresh) =
              Ok {| Crud.status := 201;
                    Crud.message := [Lit "Created new question ";
                                     Val (VStr "Two Sum"); Lit " successfully"];
                    Crud.data :=
                      VObj [("id", VStr "65f0c9"); ("title", VStr "Two Sum");
                            ("examples",
                             VArr [VObj [("input", VStr "nums = [2,7]");
                                         ("output", VStr "[0,1]")]])];
                    Crud.details := VUndefined |})
    by reflexivity.
  split; [exact H|].
  exact (create_201 _ _ _ H eq_refl).
Defined.

Lemma missing_field_rejected_witness :
  nullish CrudSample.blank_title = false /\
  In "title" ["title"; "difficulty"; "topics"; "problemStatement"; "constraints";
              "examples"; "entryPoint"; "testCases"] /\
  Crud.is_missing (field CrudSample.blank_title "title") = true /\
  (exists r,
      Crud.run (Crud.createQuestion CrudSample.blank_title) CrudSample.fresh =
        (Ok r, []) /\
      Crud.status r = 400%nat) /\
  Crud.updates (snd (Crud.run (Crud.updateQuestion CrudSample.params
                                 CrudSample.blank_title) CrudSample.fresh)) = [] /\
  Crud.destroys (snd (Crud.run (Crud.updateQuestion CrudSample.params
                                  CrudSample.blank_title) CrudSample.fresh)) = [].
Proof.
  assert (H1 : nullish CrudSample.blank_title = false) by reflexivity.
  assert (H2 : In "title" ["title"; "difficulty"; "topics"; "problemStatement";
                           "constraints"; "examples"; "entryPoint"; "testCases"])
    by (left; reflexivity).
  assert (H3 : Crud.is_missing (field CrudSample.blank_title "title") = true)
    by reflexivity.
  repeat (split; [assumption|]).
  exact (missing_field_rejected CrudSample.params _ CrudSample.fresh _ H1 H2 H3).
Defined.

Lemma update_destroys_only_unreferenced_witness :
  In ["old.png"]
     (Crud.destroys (snd (Crud.run (Crud.updateQuestion CrudSample.params
                                      CrudSample.body) CrudSample.fresh))) /\
  Crud.destroys (snd (Crud.run (Crud.updateQuestion CrudSample.params
                                  CrudSample.body) CrudSample.fresh)) =
    [["old.png"]].
Proof.
  assert (H : In ["old.png"]
                 (Crud.destroys
                    (snd (Crud.run (Crud.updateQuestion CrudSample.params
                                      CrudSample.body) CrudSample.fresh))))
    by (left; reflexivity).
  split; [exact H|].
  exact (proj1 (update_destroys_only_unreferenced _ _ _ _ H)).
Defined.

Lemma update_writes_only_valid_witness :
  In (VStr "65f0c1", CrudSample.fields)
     (Crud.updates (snd (Crud.run (Crud.updateQuestion CrudSample.params
                                     CrudSample.body) CrudSample.fresh))) /\
  Crud.updates (snd (Crud.run (Crud.updateQuestion CrudSample.params
                                 CrudSample.body) CrudSample.fresh)) =
    [(VStr "65f0c1", CrudSample.fields)].
Proof.
  assert (H : In (VStr "65f0c1", CrudSample.fields)
                 (Crud.updates
                    (snd (Crud.run (Crud.updateQuestion CrudSample.params
                                      CrudSample.body) CrudSample.fresh))))
    by (left; reflexivity).
  split; [exact H|].
  exact (proj1 (update_writes_only_valid _ _ _ _ _ H)).
Defined.

Lemma delete_guards_witness :
  In (VStr "65f0c1")
     (Crud.deletes (snd (Crud.run (Crud.deleteQuestion CrudSample.params)
                           CrudSample.fresh))) /\
  Crud.deletes (snd (Crud.run (Crud.deleteQuestion CrudSample.params)
                       CrudSample.fresh)) = [VStr "65f0c1"] /\
  In ["old.png"]
     (Crud.destroys (snd (Crud.run (Crud.deleteQuestion CrudSample.params)
                            CrudSample.fresh))).
Proof.
  assert (H : In (VStr "65f0c1")
                 (Crud.deletes (snd (Crud.run (Crud.deleteQuestion CrudSample.params)
                                       CrudSample.fresh))))
    by (left; reflexivity).
  split; [exact H|]. split.
  - exact (proj1 (proj1 (delete_guards CrudSample.params CrudSample.fresh) _ H)).
  - left. reflexivity.
Defined.

Lemma getAll_all_or_nothing_witness :
  Crud._findAllQuestions CrudSample.fresh =
    Ok (VArr [CrudSample.stored; CrudSample.stored]) /\
  existsb nullish [CrudSample.stored; CrudSample.stored] = false /\
  exists r formatted,
    fst (Crud.run Crud.getAllQuestions CrudSample.fresh) = Ok r /\
    Crud.status r = 200%nat /\
    map_res formatQuestionResponse [CrudSample.stored; CrudSample.stored] =
      Ok formatted /\
    List.length formatted = 2%nat /\
    Crud.data r = JSON_stringify (VArr formatted).
Proof.
  assert (H : Crud._findAllQuestions CrudSample.fresh =
              Ok (VArr [CrudSample.stored; CrudSample.stored])) by reflexivity.
  assert (Hn : existsb nullish [CrudSample.stored; CrudSample.stored] = false)
    by reflexivity.
  split; [exact H|]. split; [exact Hn|].
  exact (proj1 (getAll_all_or_nothing _ _ H) Hn).
Defined.

Lemma getQuestion_found_only_witness :
  fst (Crud.run (Crud.getQuestion CrudSample.params) CrudSample.fresh) =
    Ok {| Crud.status := 200;
          Crud.message := [Lit "Found question"];
          Crud.data :=
            VObj [("id", VStr "65f0c1"); ("title", VStr "Two Sum");
                  ("difficulty", VStr "Easy"); ("topics", VArr [VStr "Arrays"]);
                  ("examples", VArr [CrudSample.stored_example])];
          Crud.details := VUndefined |} /\
  exists id question formatted,
    member CrudSample.params "id" = Ok id /\
    Crud.isValidObjectId CrudSample.fresh id = true /\
    Crud._findQuestionById CrudSample.fresh id = Ok question /\
    truthy question = true /\
    formatQuestionResponse question = Ok formatted /\
    VObj [("id", VStr "65f0c1"); ("title", VStr "Two Sum");
          ("difficulty", VStr "Easy"); ("topics", VArr [VStr "Arrays"]);
          ("examples", VArr [CrudSample.stored_example])] =
    JSON_stringify formatted.
Proof.
  assert (H : fst (Crud.run (Crud.getQuestion CrudSample.params) CrudSample.fresh) =
              Ok {| Crud.status := 200;
                    Crud.message := [Lit "Found question"];
                    Crud.data :=
                      VObj [("id", VStr "65f0c1"); ("title", VStr "Two Sum");
                            ("difficulty", VStr "Easy");
                            ("topics", VArr [VStr "Arrays"]);
                            ("examples", VArr [CrudSample.stored_example])];
                    Crud.details := VUndefined |})
    by reflexivity.
  split; [exact H|].
  exact (proj1 (getQuestion_found_only CrudSample.params CrudSample.fresh)
           _ H eq_refl).
Defined.
